(** * SwiftRunner: the Swift action runner of OpenWhisk

    A shallow embedding of [core/swiftAction/swiftrunner.py] (Python 2):
    the three methods [SwiftRunner.epilogue], [SwiftRunner.build] and
    [SwiftRunner.env], with the library calls they make ([json.dumps], the
    [%s] operator, [print], [subprocess.Popen(...).communicate()]).

    Conventions.
    - A Python [unicode] object is the list of its code points; a Python
      byte [str] that the program itself produces (always ASCII here) is a
      Rocq [string].
    - Python values are the values a decoded JSON message is made of,
      tuples, and [POther] for an object of any other class.  The program
      is taken to run on Python 2.7.
    - Dictionaries of a message keep their iteration order (which
      [json.dumps] follows); environment mappings, where only lookups
      matter, are finite maps.
    - Python objects that are mutated in place live in a store; a Python
      variable holding such an object holds its address.
    - A raised exception ends the method, and what was written to the store
      before it stays written. *)

From Stdlib Require Import ZArith NArith Ascii String DecimalString.
From stdpp Require Import base option list strings gmap.

Open Scope string_scope.

(** ** Text *)

(** A [unicode] object: its code points. *)
Abbreviation unicode := (list N).

(** The unicode text of an ASCII literal of the source. *)
Definition u (s : string) : unicode :=
  N_of_ascii <$> list_ascii_of_string s.

(** The line feed, as a byte string. *)
Definition LF : string := String "010" EmptyString.

(** [str(n)] of an integer. *)
Definition str_of_int (z : Z) : string :=
  NilEmpty.string_of_int (Z.to_int z).

(** ** Python values *)

(** A float: not a number, an infinity, or the finite number
    [digits * 10 ^ exponent] with its sign, where [digits] and [exponent]
    are those of the shortest decimal that reads back as the float (the
    one [repr] shows).  Zero has [digits = 0], with either sign. *)
Inductive pyfloat : Type :=
  | FNan
  | FInf (negative : bool)
  | FFinite (negative : bool) (digits : N) (exponent : Z).

(** The keys of a dictionary are strings, as in a decoded JSON object.
    [POther name truth] stands for an object of any other class (a set,
    say), with the truth value it has: it has no method [get], and it is
    none of the objects [json.dumps] encodes. *)
#[local] Unset Elimination Schemes.
Inductive pyval : Type :=
  | PNone
  | PBool (b : bool)
  | PInt (z : Z)
  | PFloat (f : pyfloat)
  | PUnicode (s : unicode)
  | PList (l : list pyval)
  | PTuple (l : list pyval)
  | PDict (d : list (unicode * pyval))
  | POther (name : string) (truth : bool).
#[local] Set Elimination Schemes.

(** Induction on a value, with the hypothesis on every item of a list and
    on every value of a dictionary. *)
Section PyvalInduction.

Variable P : pyval → Prop.
Hypothesis HNone : P PNone.
Hypothesis HBool : ∀ b, P (PBool b).
Hypothesis HInt : ∀ z, P (PInt z).
Hypothesis HFloat : ∀ f, P (PFloat f).
Hypothesis HUnicode : ∀ s, P (PUnicode s).
Hypothesis HList : ∀ l, Forall P l → P (PList l).
Hypothesis HTuple : ∀ l, Forall P l → P (PTuple l).
Hypothesis HDict : ∀ d, Forall (λ kv, P kv.2) d → P (PDict d).
Hypothesis HOther : ∀ name truth, P (POther name truth).

Fixpoint pyval_ind (v : pyval) : P v :=
  match v with
  | PNone => HNone
  | PBool b => HBool b
  | PInt z => HInt z
  | PFloat f => HFloat f
  | PUnicode s => HUnicode s
  | PList l =>
      HList l
        ((fix items (l : list pyval) : Forall P l :=
            match l with
            | [] => @List.Forall_nil _ P
            | x :: r => @List.Forall_cons _ P x r (pyval_ind x) (items r)
            end) l)
  | PTuple l =>
      HTuple l
        ((fix items (l : list pyval) : Forall P l :=
            match l with
            | [] => @List.Forall_nil _ P
            | x :: r => @List.Forall_cons _ P x r (pyval_ind x) (items r)
            end) l)
  | PDict d =>
      HDict d
        ((fix items (d : list (list N * pyval)) : Forall (λ kv, P kv.2) d :=
            match d with
            | [] => List.Forall_nil _
            | kv :: r =>
                @List.Forall_cons _ (λ kv, P kv.2) kv r
                  (match kv as kv' return P kv'.2 with (_, x) => pyval_ind x end)
                  (items r)
            end) d)
  | POther name truth => HOther name truth
  end.

End PyvalInduction.

Inductive pyexc : Type :=
  | AttributeError
  | TypeError
  | IOError
  | UnicodeDecodeError
  | OSError
  | KeyError
  | OtherError (name : string).

(** Truth value of an object, as [if message] tests it. *)
Definition truthy (v : pyval) : bool :=
  match v with
  | PNone => false
  | PBool b => b
  | PInt z => negb (z =? 0)%Z
  | PFloat (FFinite _ digits _) => negb (digits =? 0)%N
  | PFloat _ => true
  | PUnicode s => negb (bool_decide (s = []))
  | PList l => negb (bool_decide (length l = 0))
  | PTuple l => negb (bool_decide (length l = 0))
  | PDict d => negb (bool_decide (length d = 0))
  | POther _ truth => truth
  end.

(** Lookup of a key in a dictionary held in iteration order. *)
Fixpoint dict_lookup (k : unicode) (d : list (unicode * pyval)) : option pyval :=
  match d with
  | [] => None
  | (k', v) :: d' => if bool_decide (k' = k) then Some v else dict_lookup k d'
  end.

(** [k in d] on a dictionary. *)
Definition dict_contains (k : unicode) (d : list (unicode * pyval)) : bool :=
  match dict_lookup k d with Some _ => true | None => false end.

(** [d[k]] on a dictionary. *)
Definition dict_getitem (d : list (unicode * pyval)) (k : unicode) : pyexc + pyval :=
  match dict_lookup k d with
  | Some v => inr v
  | None => inl KeyError
  end.

Definition is_dict (o : pyval) : bool :=
  match o with
  | PDict _ => true
  | _ => false
  end.

(** [d.get(k, default)]; only dictionaries have the attribute. *)
Definition py_get (o : pyval) (k : unicode) (default : pyval) : pyexc + pyval :=
  match o with
  | PDict d => inr (match dict_lookup k d with Some v => v | None => default end)
  | _ => inl AttributeError
  end.

(** Results of library calls that may raise. *)
Definition exc_bind {A B : Type} (r : pyexc + A) (f : A → pyexc + B) : pyexc + B :=
  match r with
  | inl e => inl e
  | inr x => f x
  end.

(** Evaluation left to right; the first exception is the one raised. *)
Fixpoint collect {A : Type} (rs : list (pyexc + A)) : pyexc + list A :=
  match rs with
  | [] => inr []
  | r :: rs' => exc_bind r (λ x, exc_bind (collect rs') (λ xs, inr (x :: xs)))
  end.

(** ** repr of a float *)

Fixpoint zeros (k : nat) : string :=
  match k with
  | 0 => ""
  | S k' => String "0" (zeros k')
  end.

(** The decimal digits of a natural number. *)
Definition digits_of (n : N) : string :=
  NilEmpty.string_of_uint (N.to_uint n).

(** [digits * 10 ^ exponent] without the zeros that end [digits]. *)
Fixpoint strip_zeros (fuel : nat) (digits : N) (exponent : Z) : N * Z :=
  match fuel with
  | 0 => (digits, exponent)
  | S fuel' =>
      if negb (digits =? 0)%N && (digits mod 10 =? 0)%N
      then strip_zeros fuel' (digits / 10)%N (exponent + 1)%Z
      else (digits, exponent)
  end.

(** The exponent of the scientific notation: a sign and two digits at
    least. *)
Definition exponent_str (e : Z) : string :=
  (if (e <? 0)%Z then "e-" else "e+")
  +:+ zeros (2 - String.length (digits_of (Z.abs_N e)))
  +:+ digits_of (Z.abs_N e).

(** [repr(x)] of a finite float without its sign (Python 2.7): the shortest
    digits, as a decimal with a point when the point falls less than four
    zeros before the digits and within sixteen places, in scientific
    notation otherwise. *)
Definition finite_repr (digits : N) (exponent : Z) : string :=
  let '(d, e) := strip_zeros (N.to_nat (N.size digits)) digits exponent in
  let ds := digits_of d in
  let n := String.length ds in
  let decpt := (Z.of_nat n + e)%Z in
  if ((decpt <=? -4) || (16 <? decpt))%Z
  then
    String.substring 0 1 ds
    +:+ (if Nat.ltb 1 n then "." +:+ String.substring 1 (n - 1) ds else "")
    +:+ exponent_str (decpt - 1)
  else if (decpt <=? 0)%Z
  then "0." +:+ zeros (Z.to_nat (- decpt)) +:+ ds
  else if (Z.of_nat n <=? decpt)%Z
  then ds +:+ zeros (Z.to_nat decpt - n) +:+ ".0"
  else
    String.substring 0 (Z.to_nat decpt) ds
    +:+ "." +:+ String.substring (Z.to_nat decpt) (n - Z.to_nat decpt) ds.

(** ** json.dumps *)

Module Json.

Definition hex_digit (n : N) : ascii :=
  match n with
  | 0 => "0" | 1 => "1" | 2 => "2" | 3 => "3" | 4 => "4" | 5 => "5"
  | 6 => "6" | 7 => "7" | 8 => "8" | 9 => "9" | 10 => "a" | 11 => "b"
  | 12 => "c" | 13 => "d" | 14 => "e" | _ => "f"
  end%N%char.

(** ['\\u{0:04x}'.format(n)] for [n < 0x10000]. *)
Definition u_escape (n : N) : string :=
  String "\" (String "u"
    (String (hex_digit (N.land (N.shiftr n 12) 15))
    (String (hex_digit (N.land (N.shiftr n 8) 15))
    (String (hex_digit (N.land (N.shiftr n 4) 15))
    (String (hex_digit (N.land n 15)) EmptyString))))).

(** The replacement of one character in [encode_basestring_ascii]:
    [ESCAPE_DCT] first, printable ASCII kept, everything else as
    [\uXXXX], above the basic plane as a surrogate pair. *)
Definition escape_char (c : N) : string :=
  if (c =? 92)%N then "\\"
  else if (c =? 34)%N then String "\" (String "034" EmptyString)
  else if (c =? 8)%N then "\b"
  else if (c =? 12)%N then "\f"
  else if (c =? 10)%N then "\n"
  else if (c =? 13)%N then "\r"
  else if (c =? 9)%N then "\t"
  else if ((32 <=? c) && (c <=? 126))%N then String (ascii_of_N c) EmptyString
  else if (c <? 65536)%N then u_escape c
  else
    let n := (c - 65536)%N in
    let s1 := N.lor 55296 (N.land (N.shiftr n 10) 1023) in
    let s2 := N.lor 56320 (N.land n 1023) in
    u_escape s1 +:+ u_escape s2.

Definition quote : string := String "034" EmptyString.

Definition encode_basestring_ascii (s : unicode) : string :=
  quote +:+ String.concat "" (escape_char <$> s) +:+ quote.

(** [floatstr] of the encoder, with [allow_nan] as it is by default. *)
Definition floatstr (f : pyfloat) : string :=
  match f with
  | FNan => "NaN"
  | FInf false => "Infinity"
  | FInf true => "-Infinity"
  | FFinite negative digits exponent =>
      (if negative then "-" else "") +:+ finite_repr digits exponent
  end.

(** [json.dumps(o)] with the default arguments: separators [", "] and
    [": "], no indentation, [ensure_ascii], keys in iteration order; an
    object that is no JSON value raises [TypeError]. *)
Fixpoint dumps (o : pyval) : pyexc + string :=
  match o with
  | PNone => inr "null"
  | PBool true => inr "true"
  | PBool false => inr "false"
  | PInt z => inr (str_of_int z)
  | PFloat f => inr (floatstr f)
  | PUnicode s => inr (encode_basestring_ascii s)
  | PList l | PTuple l =>
      exc_bind (collect (dumps <$> l))
        (λ ss, inr ("[" +:+ String.concat ", " ss +:+ "]"))
  | PDict d =>
      exc_bind
        (collect ((λ kv, match kv with
                         | (k, x) =>
                             exc_bind (dumps x)
                               (λ s, inr (encode_basestring_ascii k +:+ ": " +:+ s))
                         end) <$> d))
        (λ ss, inr ("{" +:+ String.concat ", " ss +:+ "}"))
  | POther _ _ => inl TypeError
  end.

End Json.

(** A byte string of printable ASCII characters only (space to tilde). *)
Fixpoint printable (s : string) : bool :=
  match s with
  | EmptyString => true
  | String a s' =>
      (32 <=? N_of_ascii a)%N && (N_of_ascii a <=? 126)%N && printable s'
  end.

(** An object made of JSON values only. *)
Fixpoint json_value (o : pyval) : bool :=
  match o with
  | PNone | PBool _ | PInt _ | PFloat _ | PUnicode _ => true
  | PList l | PTuple l => forallb json_value l
  | PDict d => forallb (λ kv, match kv with (_, x) => json_value x end) d
  | POther _ _ => false
  end.

(** ** The process and its surroundings *)

(** A [datetime.time]. *)
Record time : Type := Time {
  hour : nat;
  minute : nat;
  second : nat;
  microsecond : nat
}.

(** What a child process does once spawned: the status it exits with,
    what it writes to its two standard streams, and what it makes of the
    files. *)
Record completed : Type := Completed {
  returncode : Z;
  child_stdout : string;
  child_stderr : string;
  child_files : gmap string (pyexc + unicode) → gmap string (pyexc + unicode)
}.

(** The state the three methods read and write.
    - [dicts]: the mapping objects (such as [os.environ]) by address;
    - [files]: for each path that exists, what reading the file through
      the utf-8 codec gives: its text, or the exception raised when the
      file cannot be read or is no utf-8;
    - [writers]: the texts written so far through each open file object,
      one per call of [write], oldest first;
    - [stdout], [stderr]: what has reached the two standard streams;
    - [clock], [ticks]: the readings [datetime.datetime.now()] will give,
      and how many were taken;
    - [spawn]: what running a command does; [None] where the command
      cannot be started. *)
Record world : Type := World {
  dicts : gmap nat (gmap string string);
  files : gmap string (pyexc + unicode);
  writers : gmap nat (list unicode);
  stdout : string;
  stderr : string;
  clock : nat → time;
  ticks : nat;
  spawn : list string → option completed
}.

(** A method body: it runs in a world, leaves a world, and either raises or
    returns. *)
Definition Py (A : Type) : Type := world → world * (pyexc + A).

#[global] Instance Py_ret : MRet Py := λ A x w, (w, inr x).

#[global] Instance Py_bind : MBind Py := λ A B f m w,
  match m w with
  | (w', inl e) => (w', inl e)
  | (w', inr x) => f x w'
  end.

Definition lift {A : Type} (r : pyexc + A) : Py A := λ w, (w, r).

Definition set_dicts (f : gmap nat (gmap string string) → gmap nat (gmap string string))
    (w : world) : world :=
  World (f (dicts w)) (files w) (writers w) (stdout w) (stderr w)
        (clock w) (ticks w) (spawn w).

Definition set_writers (f : gmap nat (list unicode) → gmap nat (list unicode))
    (w : world) : world :=
  World (dicts w) (files w) (f (writers w)) (stdout w) (stderr w)
        (clock w) (ticks w) (spawn w).

Definition set_stdout (f : string → string) (w : world) : world :=
  World (dicts w) (files w) (writers w) (f (stdout w)) (stderr w)
        (clock w) (ticks w) (spawn w).

Definition set_stderr (f : string → string) (w : world) : world :=
  World (dicts w) (files w) (writers w) (stdout w) (f (stderr w))
        (clock w) (ticks w) (spawn w).

Definition set_ticks (f : nat → nat) (w : world) : world :=
  World (dicts w) (files w) (writers w) (stdout w) (stderr w)
        (clock w) (f (ticks w)) (spawn w).

Definition set_files
    (f : gmap string (pyexc + unicode) → gmap string (pyexc + unicode))
    (w : world) : world :=
  World (dicts w) (f (files w)) (writers w) (stdout w) (stderr w)
        (clock w) (ticks w) (spawn w).

(** [d[k] = v] on the mapping object at address [d]. *)
Definition dict_setitem (d : nat) (k v : string) : Py unit := λ w,
  (set_dicts (λ h, <[d := <[k := v]> (h !!! d)]> h) w, inr tt).

(** [fp.write(text)]. *)
Definition file_write (fp : nat) (text : unicode) : Py unit := λ w,
  (set_writers (λ ws, <[fp := ((ws !!! fp) ++ [text])%list]> ws) w, inr tt).

(** What the file behind [fp] holds once the writes are flushed. *)
Definition written (w : world) (fp : nat) : unicode :=
  concat (writers w !!! fp).

(** [codecs.open(path, "r", "utf-8")] followed by [read()]: the text of the
    file, the exception of a file that cannot be read or decoded,
    [IOError] when there is no file. *)
Definition read_text (path : string) : Py unicode := λ w,
  match files w !! path with
  | Some (inr text) => (w, inr text)
  | Some (inl e) => (w, inl e)
  | None => (w, inl IOError)
  end.

(** The [print] statement on a byte string. *)
Definition print (s : string) : Py unit := λ w,
  (set_stdout (λ out, out +:+ s +:+ LF) w, inr tt).

(** [datetime.datetime.now().time()]. *)
Definition now_time : Py time := λ w,
  (set_ticks S w, inr (clock w (ticks w))).

(** ** Formatting *)

Definition digits (n : nat) : string :=
  NilEmpty.string_of_uint (Nat.to_uint n).

(** [%0<width>d] of a natural number. *)
Definition zfill (width n : nat) : string :=
  zeros (width - String.length (digits n)) +:+ digits n.

(** [str(t)] of a [datetime.time]: the microseconds only when there are
    some. *)
Definition time_str (t : time) : string :=
  zfill 2 (hour t) +:+ ":" +:+ zfill 2 (minute t) +:+ ":" +:+ zfill 2 (second t)
  +:+ (if microsecond t is 0 then "" else "." +:+ zfill 6 (microsecond t)).

(** [str(l)] of a list of byte strings made of printable characters other
    than the quote and the backslash, as the items of [BUILD_PROCESS] are. *)
Definition str_of_str_list (l : list string) : string :=
  "[" +:+ String.concat ", " ((λ s, "'" +:+ s +:+ "'") <$> l) +:+ "]".

(** [str(x)] of a byte string or [None]. *)
Definition str_of_optional (x : option string) : string :=
  match x with
  | Some s => s
  | None => "None"
  end.

(** ** subprocess *)

(** A [Popen] object: the command, which of the child's streams are pipes
    ([stdout=PIPE], [stderr=PIPE]), and the child. *)
Record popen : Type := PopenObject {
  argv : list string;
  stdout_is_pipe : bool;
  stderr_is_pipe : bool;
  child : completed
}.

(** [subprocess.Popen(argv, stdout=..., stderr=...)]; [OSError] when the
    command cannot be started. *)
Definition Popen (cmd : list string) (stdout_pipe stderr_pipe : bool) : Py popen := λ w,
  match spawn w cmd with
  | Some c => (w, inr (PopenObject cmd stdout_pipe stderr_pipe c))
  | None => (w, inl OSError)
  end.

(** [p.communicate()]: waits for the child and returns the pair of what it
    wrote to each stream that is a pipe, [None] for one that is not; a
    stream that is no pipe is the parent's own.  By then the child has done
    to the files what it does. *)
Definition communicate (p : popen) : Py (option string * option string) := λ w,
  let w1 := if stdout_is_pipe p then w
            else set_stdout (λ out, out +:+ child_stdout (child p)) w in
  let w2 := if stderr_is_pipe p then w1
            else set_stderr (λ err, err +:+ child_stderr (child p)) w1 in
  (set_files (child_files (child p)) w2, inr (if stdout_is_pipe p then Some (child_stdout (child p)) else None,
            if stderr_is_pipe p then Some (child_stderr (child p)) else None)).

(** ** The runner *)

Module SwiftRunner.

Definition SRC_EPILOGUE_FILE : string := "./epilogue.swift".
Definition DEST_SCRIPT_FILE : string := "/swiftAction/action.swift".
Definition DEST_BIN_FILE : string := "/swiftAction/action".
Definition BUILD_PROCESS : list string :=
  [ "swiftc"; "-v"; "-Xfrontend"; "-debug-time-function-bodies"; "-O";
    DEST_SCRIPT_FILE; "-o"; DEST_BIN_FILE ].

Section Methods.

(** [str(x)] of a list, a dictionary or another object, which the
    [%s] operator calls on such an entry-point name; and of a float. *)
Variable py_str : pyval → unicode.

(** [ActionRunner.env(self, message)] of [actionproxy.py]: it returns
    the address of a mapping object, after any effect of its own. *)
Variable ActionRunner_env : pyval → Py nat.

(** The text the conversion [%s] puts in place of itself: a string as
    it is, [str(x)] of anything else. *)
Definition to_text (x : pyval) : unicode :=
  match x with
  | PUnicode s => s
  | PNone => u "None"
  | PBool true => u "True"
  | PBool false => u "False"
  | PInt z => u (str_of_int z)
  | PFloat _ | PList _ | PTuple _ | PDict _ | POther _ _ => py_str x
  end.

(** [fmt % x] where [fmt] is [before], the one conversion [%s], and
    [after]: a tuple on the right is the tuple of the arguments, of which
    the format takes exactly one; anything else is the one argument. *)
Definition percent_s (before : unicode) (x : pyval) (after : unicode)
    : pyexc + unicode :=
  match x with
  | PTuple [item] => inr (before ++ to_text item ++ after)%list
  | PTuple _ => inl TypeError
  | _ => inr (before ++ to_text x ++ after)%list
  end.

(** The entry-point name [epilogue] settles on. *)
Definition main_function (init_message : list (unicode * pyval)) : pyexc + pyval :=
  if dict_contains (u "main") init_message
  then dict_getitem init_message (u "main")
  else inr (PUnicode (u "main")).

Definition epilogue (fp : nat) (init_message : list (unicode * pyval)) : Py unit :=
  main_function ← lift (main_function init_message);
  ep ← read_text SRC_EPILOGUE_FILE;
  file_write fp ep;;
  statement ← lift (percent_s (u "_run_main(") main_function (u ")" ++ [10%N])%list);
  file_write fp statement.

Definition build : Py pyval :=
  t0 ← now_time;
  print (time_str t0 +:+ " Start compilation");;
  print (str_of_str_list BUILD_PROCESS);;
  p ← Popen BUILD_PROCESS true false;
  oe ← communicate p;
  print (str_of_optional (fst oe));;
  print (str_of_optional (snd oe));;
  t1 ← now_time;
  print (time_str t1 +:+ " Finished compilation");;
  mret PNone.

(** The payload [env] encodes: [message.get('value', {}) if message
    else {}]. *)
Definition args (message : pyval) : pyexc + pyval :=
  if truthy message
  then py_get message (u "value") (PDict [])
  else inr (PDict []).

Definition env (message : pyval) : Py nat :=
  env ← ActionRunner_env message;
  args ← lift (args message);
  encoded ← lift (Json.dumps args);
  dict_setitem env "WHISK_INPUT" encoded;;
  mret env.

End Methods.

End SwiftRunner.

(** ** What the properties are stated with *)

(** The statement [epilogue] writes last. *)
Definition invocation (py_str : pyval → unicode) (name : pyval) : unicode :=
  (u "_run_main(" ++ SwiftRunner.to_text py_str name ++ u ")" ++ [10%N])%list.

(** The world once the mapping at [base] binds the input variable. *)
Definition bind_input (base : nat) (encoded : string) (w : world) : world :=
  set_dicts (λ h, <[base := <["WHISK_INPUT" := encoded]> (h !!! base)]> h) w.

(** Modelled from the spec: [ActionRunner.env] of [actionproxy.py], which
    is not among the sources.  The spec has the builder "start from the
    base ambient environment already assembled by the collaborator": the
    parent hands back the mapping object that holds the ambient
    environment, here the one at address [environ]. *)
Definition ActionRunner_env_ambient (environ : nat) (message : pyval) : Py nat :=
  mret environ.

(** For the examples: a compiler that fails on a syntax error and makes
    no file, and one that succeeds and makes the artifact, which is no
    text. *)
Definition failing_compiler : completed :=
  Completed 1 "" "syntax error" (λ fs, fs).

Definition working_compiler : completed :=
  Completed 0 "" "" (λ fs, <[SwiftRunner.DEST_BIN_FILE := inl UnicodeDecodeError]> fs).

(** A world for the examples: the ambient environment at address 0, the
    template in place, the failing compiler. *)
Definition example_world : world :=
  World {[ 0 := {[ "PATH" := "/usr/bin" ]} ]}
        {[ SwiftRunner.SRC_EPILOGUE_FILE
           := inr (u "func _run_main() {}" ++ [10%N])%list ]}
        {[ 3 := [u "func main() {}"] ]}
        "" ""
        (λ n, Time 9 5 n (7 * n)) 0
        (λ _, Some failing_compiler).

(** What a call of [build] prints when the compiler was started at [t0],
    wrote [o] to its standard output, and ended at [t1]. *)
Definition build_log (t0 t1 : time) (o : string) : string :=
  (time_str t0 +:+ " Start compilation" +:+ LF)
  +:+ (str_of_str_list SwiftRunner.BUILD_PROCESS +:+ LF)
  +:+ (o +:+ LF)
  +:+ ("None" +:+ LF)
  +:+ (time_str t1 +:+ " Finished compilation" +:+ LF).

(** The world in which every command runs as [c] does. *)
Definition with_compiler (c : completed) (w : world) : world :=
  World (dicts w) (files w) (writers w) (stdout w) (stderr w)
        (clock w) (ticks w) (λ _, Some c).

(** What a caller or an onlooker has of a call: its result and what reached
    the two standard streams. *)
Definition observe {A : Type} (r : world * (pyexc + A)) : (pyexc + A) * string * string :=
  (r.2, stdout r.1, stderr r.1).

(** The spec's Build Result. *)
Record BuildResult : Type := {
  success : bool;
  stdout_diagnostics : string;
  stderr_diagnostics : string;
  started : time;
  finished : time
}.

(** The claim that the outcome of [build] tells the exit status: some
    reading of what a call returns and prints is true exactly when the
    compiler exits with status 0. *)
Definition reports_exit_status (report : (pyexc + pyval) * string * string → bool) : Prop :=
  ∀ (w : world) (c : completed),
    report (observe (SwiftRunner.build (with_compiler c w)))
    = bool_decide (returncode c = 0%Z).

(** The claim that [build] produces a Build Result: some reading of the
    value it returns is the record of the spec. *)
Definition produces_build_result (read : pyexc + pyval → option BuildResult) : Prop :=
  ∀ (w : world) (c : completed),
    read (SwiftRunner.build (with_compiler c w)).2
    = Some {| success := bool_decide (returncode c = 0%Z);
              stdout_diagnostics := child_stdout c;
              stderr_diagnostics := child_stderr c;
              started := clock w (ticks w);
              finished := clock w (S (ticks w)) |}.


(** The characters of a reversed text up to its first line feed. *)
Fixpoint line_tail (reversed : unicode) : unicode :=
  match reversed with
  | [] => []
  | c :: rest => if (c =? 10)%N then [] else c :: line_tail rest
  end.

(** The final line of a text: its last character with the characters
    before it back to the line feed before them. *)
Definition final_line (text : unicode) : unicode :=
  match reverse text with
  | [] => []
  | c :: before => reverse (c :: line_tail before)
  end.

(** The encoding of [{"x": n}]. *)
Definition encoded_x (n : string) : string :=
  "{" +:+ Json.quote +:+ "x" +:+ Json.quote +:+ ": " +:+ n +:+ "}".

(** The run message [{"value": {"x": n}}]. *)
Definition run_message (n : Z) : pyval :=
  PDict [(u "value", PDict [(u "x", PInt n)])].

(** The payload of a run message, in the words of the spec: the value
    under the key "value" of a mapping; the empty mapping when the key is
    absent and when the message is missing ([None], or another false
    value).  A true value that is no mapping is no run message. *)
Definition message_payload (message : pyval) : option pyval :=
  match message with
  | PDict d => Some (default (PDict []) (dict_lookup (u "value") d))
  | PNone => Some (PDict [])
  | _ => if truthy message then None else Some (PDict [])
  end.

(** The lines of a text, each with the line feed that ends it; [line] is
    the part of the current line already read. *)
Fixpoint lines_from (line text : unicode) : list unicode :=
  match text with
  | [] => match line with [] => [] | _ => [line] end
  | c :: rest =>
      if (c =? 10)%N then (line ++ [c])%list :: lines_from [] rest
      else lines_from (line ++ [c])%list rest
  end.

Definition text_lines (text : unicode) : list unicode := lines_from [] text.

Definition is_tuple (o : pyval) : bool :=
  match o with
  | PTuple _ => true
  | _ => false
  end.

(** The claim that [env] leaves its base environment as it was: the
    mapping the parent's method hands back is, after the call, what it was
    before it. *)
Definition leaves_base_unchanged (ActionRunner_env : pyval → Py nat) : Prop :=
  ∀ (message : pyval) (w w1 : world) (base : nat),
    ActionRunner_env message w = (w1, inr base) →
    dicts (SwiftRunner.env ActionRunner_env message w).1 !! base = dicts w1 !! base.

(** For the examples: a [str] of containers, two initialization messages
    and the text of the template of [example_world]. *)
Definition example_str (x : pyval) : unicode := u "<object>".

Definition init_without_main : list (unicode * pyval) :=
  [(u "code", PUnicode (u "func main() {}"))].

Definition init_with_main : list (unicode * pyval) :=
  [(u "code", PUnicode (u "func handleRequest() {}"));
   (u "main", PUnicode (u "handleRequest"))].

Definition example_template : unicode := (u "func _run_main() {}" ++ [10%N])%list.

(** For the examples: a parent's method that raises, and an initialization
    message whose entry-point name holds a line feed. *)
Definition ActionRunner_env_raising (message : pyval) : Py nat :=
  λ w, (w, inl (OtherError "RuntimeError")).

Definition init_with_line_feed : list (unicode * pyval) :=
  [(u "main", PUnicode (u "a" ++ [10%N] ++ u "b")%list)].

(** An initialization message whose entry-point name closes the invocation
    and opens another on the next line. *)
Definition init_with_two_invocations : list (unicode * pyval) :=
  [(u "main", PUnicode (u "a)" ++ [10%N] ++ u "_run_main(b")%list)].

(** For the examples: what [WHISK_INPUT] is bound to after a call of [env]
    on [message] in [example_world], with the parent's method that hands
    back the ambient environment. *)
Definition input_after (message : pyval) : option string :=
  (dicts (SwiftRunner.env (ActionRunner_env_ambient 0) message example_world).1 !!! 0)
    !! "WHISK_INPUT".

(** A world without a template file and without a compiler. *)
Definition bare_world : world :=
  World ∅ ∅ ∅ "" "" (λ n, Time 23 59 n 0) 0 (λ _, None).

(** * Properties *)

(** ** Running a method body step by step *)

Lemma bind_returns {A B : Type} (m : Py A) (f : A → Py B) (w w' : world) (x : A) :
  m w = (w', inr x) → (m ≫= f) w = f x w'.
Proof. intros H. unfold mbind, Py_bind. by rewrite H. Qed.

Lemma bind_raises {A B : Type} (m : Py A) (f : A → Py B) (w w' : world) (e : pyexc) :
  m w = (w', inl e) → (m ≫= f) w = (w', inl e).
Proof. intros H. unfold mbind, Py_bind. by rewrite H. Qed.

Lemma lift_returns {A : Type} (r : pyexc + A) (w : world) : lift r w = (w, r).
Proof. reflexivity. Qed.

(** ** json.dumps *)

Section JsonProperties.

Import Json.

Lemma printable_app (s1 s2 : string) :
  printable (s1 +:+ s2) = printable s1 && printable s2.
Proof.
  induction s1 as [|a s1 IH]; simpl; [done |].
  rewrite IH. by rewrite andb_assoc.
Qed.

Lemma printable_concat (sep : string) (l : list string) :
  printable sep = true → Forall (λ s, printable s = true) l →
  printable (String.concat sep l) = true.
Proof.
  intros Hsep Hl. induction Hl as [|s l Hs Hl IH]; [done |].
  destruct l as [|s' l']; [done |].
  cbn [String.concat]. rewrite !printable_app, Hs, Hsep. exact IH.
Qed.

Lemma printable_hex_digit (n : N) :
  (32 <=? N_of_ascii (hex_digit n))%N && (N_of_ascii (hex_digit n) <=? 126)%N = true.
Proof.
  destruct n as [|p]; [done |].
  repeat (destruct p as [p|p|]; try reflexivity).
Qed.

Lemma printable_u_escape (n : N) : printable (u_escape n) = true.
Proof.
  unfold u_escape. cbn [printable]. rewrite !printable_hex_digit. reflexivity.
Qed.

Lemma printable_escape_char (c : N) : printable (escape_char c) = true.
Proof.
  unfold escape_char.
  repeat (case_match; [reflexivity |]).
  case_match eqn:Hrange.
  - apply andb_prop in Hrange as [Hlo Hhi].
    apply N.leb_le in Hlo, Hhi. cbn [printable].
    rewrite N_ascii_embedding by lia.
    rewrite andb_true_r. apply andb_true_intro. by rewrite !N.leb_le.
  - case_match; [apply printable_u_escape |].
    by rewrite printable_app, !printable_u_escape.
Qed.

Lemma printable_encode_basestring_ascii (s : unicode) :
  printable (encode_basestring_ascii s) = true.
Proof.
  unfold encode_basestring_ascii. rewrite !printable_app.
  rewrite printable_concat; [done | done |].
  apply Forall_fmap, Forall_forall. intros c _. apply printable_escape_char.
Qed.

Lemma printable_string_of_uint (d : Decimal.uint) :
  printable (NilEmpty.string_of_uint d) = true.
Proof. induction d; simpl; done. Qed.

Lemma printable_str_of_int (z : Z) : printable (str_of_int z) = true.
Proof.
  unfold str_of_int. destruct (Z.to_int z); simpl; apply printable_string_of_uint.
Qed.

Lemma collect_inr {A : Type} (rs : list (pyexc + A)) (xs : list A) :
  collect rs = inr xs ↔ rs = inr <$> xs.
Proof.
  revert xs. induction rs as [|r rs IH]; intros xs; simpl.
  - split; [intros [= <-]; done | by destruct xs].
  - destruct r as [e|x]; simpl; [by destruct xs |].
    destruct (collect rs) as [e|xs'] eqn:Hrs; simpl.
    + split; [done |]. destruct xs as [|x' xs]; [done |].
      intros [= -> Hrest]. by apply (proj2 (IH xs)) in Hrest.
    + rewrite (proj1 (IH xs') eq_refl).
      split; [by intros [= <-] |].
      destruct xs as [|x' xs]; [done |]. intros [= -> Hrest].
      by apply (inj (fmap inr)) in Hrest as ->.
Qed.

Lemma printable_zeros (k : nat) : printable (zeros k) = true.
Proof. induction k; [done | by simpl]. Qed.

Lemma printable_digits_of (n : N) : printable (digits_of n) = true.
Proof. apply printable_string_of_uint. Qed.

Lemma printable_substring (n m : nat) (s : string) :
  printable s = true → printable (String.substring n m s) = true.
Proof.
  revert n m. induction s as [|a s IH]; intros n m Hs.
  - by destruct n, m.
  - cbn [printable] in Hs. apply andb_prop in Hs as [Ha Hs].
    destruct n as [|n]; [destruct m as [|m]; [done |] |].
    + cbn [String.substring printable]. by rewrite Ha, IH.
    + cbn [String.substring]. by apply IH.
Qed.

Lemma printable_exponent_str (e : Z) : printable (exponent_str e) = true.
Proof.
  unfold exponent_str.
  rewrite !printable_app, printable_zeros, printable_digits_of.
  by destruct (e <? 0)%Z.
Qed.

Lemma printable_finite_repr (digits : N) (exponent : Z) :
  printable (finite_repr digits exponent) = true.
Proof.
  unfold finite_repr.
  destruct (strip_zeros _ digits exponent) as [d e].
  pose proof (printable_digits_of d) as Hd.
  repeat case_match;
    rewrite ?printable_app, ?printable_zeros, ?printable_exponent_str, ?Hd,
      ?printable_substring by done;
    done.
Qed.

Lemma printable_floatstr (f : pyfloat) : printable (floatstr f) = true.
Proof.
  destruct f as [|[]|[] digits exponent]; try done; cbn [floatstr].
  - by rewrite printable_app, printable_finite_repr.
  - by rewrite printable_app, printable_finite_repr.
Qed.

Lemma collect_printable (l : list pyval) (ss : list string) :
  Forall (λ o, ∀ encoded, dumps o = inr encoded → printable encoded = true) l →
  collect (dumps <$> l) = inr ss →
  Forall (λ s, printable s = true) ss.
Proof.
  intros IH Hss. apply collect_inr in Hss. revert ss Hss.
  induction IH as [|x l Hx _ IHl]; intros [|s ss]; try done.
  intros [= Hs Hrest]. constructor; [by apply Hx | by apply IHl].
Qed.

(** The encoding is printable ASCII: it has no line feed (it is one
    line) and no character beyond ASCII. *)
Lemma dumps_printable (o : pyval) (encoded : string) :
  dumps o = inr encoded → printable encoded = true.
Proof.
  revert encoded.
  induction o as [|[]|z|f|t|l IH|l IH|d IH|name truth] using pyval_ind;
    intros encoded; cbn [dumps]; try (intros [= <-]; done).
  - intros [= <-]. apply printable_str_of_int.
  - intros [= <-]. apply printable_floatstr.
  - intros [= <-]. apply printable_encode_basestring_ascii.
  - destruct (collect (dumps <$> l)) as [e|ss] eqn:Hss; simpl; [done |].
    intros [= <-]. rewrite !printable_app.
    rewrite printable_concat; [done | done |].
    by apply (collect_printable l).
  - destruct (collect (dumps <$> l)) as [e|ss] eqn:Hss; simpl; [done |].
    intros [= <-]. rewrite !printable_app.
    rewrite printable_concat; [done | done |].
    by apply (collect_printable l).
  - match goal with |- context [collect ?rs] =>
      destruct (collect rs) as [e|ss] eqn:Hss end; simpl; [done |].
    intros [= <-]. rewrite !printable_app.
    rewrite printable_concat; [done | done |].
    apply collect_inr in Hss. revert ss Hss.
    induction IH as [|[k x] d Hx _ IHd]; intros [|s ss]; try done.
    intros [= Hs Hrest]. constructor; [| by apply IHd].
    simpl in Hx. destruct (dumps x) as [e|sx]; [done |].
    simpl in Hs. injection Hs as <-.
    rewrite !printable_app, printable_encode_basestring_ascii.
    by rewrite (Hx sx).
Qed.

Lemma collect_cases {A B : Type} (f : A → pyexc + B) (ok : A → bool) (l : list A) :
  Forall (λ x, if ok x then ∃ y, f x = inr y else f x = inl TypeError) l →
  if forallb ok l then ∃ ys, collect (f <$> l) = inr ys
  else collect (f <$> l) = inl TypeError.
Proof.
  induction 1 as [|x l Hx _ IH]; [by eexists |].
  rewrite fmap_cons. cbn [collect forallb].
  destruct (ok x); cbn [andb].
  - destruct Hx as [y ->]. cbn [exc_bind]. destruct (forallb ok l).
    + destruct IH as [ys ->]. by eexists.
    + by rewrite IH.
  - by rewrite Hx.
Qed.

(** [json.dumps] returns on an object made of JSON values and raises
    [TypeError] on any other. *)
Lemma dumps_cases (o : pyval) :
  if json_value o then ∃ encoded, dumps o = inr encoded
  else dumps o = inl TypeError.
Proof.
  induction o as [|[]|z|f|t|l IH|l IH|d IH|name truth] using pyval_ind;
    cbn [dumps json_value]; try (by eexists); try done.
  - pose proof (collect_cases dumps json_value l IH) as Hl.
    destruct (forallb json_value l).
    + destruct Hl as [ss ->]. by eexists.
    + by rewrite Hl.
  - pose proof (collect_cases dumps json_value l IH) as Hl.
    destruct (forallb json_value l).
    + destruct Hl as [ss ->]. by eexists.
    + by rewrite Hl.
  - match goal with |- context [collect (?f <$> d)] =>
      pose proof (collect_cases f
                    (λ kv, match kv with (_, x) => json_value x end) d) as Hd end.
    match type of Hd with ?H → _ => assert (Hitems : H) end.
    { eapply Forall_impl; [exact IH |]. intros [k x] Hx. simpl in Hx.
      destruct (json_value x); [destruct Hx as [sx ->]; by eexists | by rewrite Hx]. }
    specialize (Hd Hitems).
    destruct (forallb _ d).
    + destruct Hd as [ss ->]. by eexists.
    + by rewrite Hd.
Qed.

Lemma dumps_empty_mapping : dumps (PDict []) = inr "{}".
Proof. reflexivity. Qed.

End JsonProperties.

(** ** Lines of a text *)

Section Lines.

Lemma line_tail_app (line rest : unicode) :
  10%N ∉ line →
  (rest = [] ∨ head rest = Some 10%N) →
  line_tail (line ++ rest)%list = line.
Proof.
  intros Hline Hrest. induction line as [|c line IH]; simpl.
  - destruct Hrest as [-> | Hhead]; [done |].
    destruct rest as [|c rest]; [done |]. by injection Hhead as ->.
  - apply not_elem_of_cons in Hline as [Hc Hline].
    destruct (c =? 10)%N eqn:Hc10; [apply N.eqb_eq in Hc10; congruence |].
    by rewrite IH.
Qed.

Lemma final_line_app (before line : unicode) :
  10%N ∉ line →
  (before = [] ∨ last before = Some 10%N) →
  final_line (before ++ line ++ [10%N])%list = (line ++ [10%N])%list.
Proof.
  intros Hline Hbefore. unfold final_line.
  rewrite (app_assoc before line), reverse_app, reverse_singleton.
  cbn [app]. rewrite reverse_app, line_tail_app.
  - by rewrite reverse_cons, reverse_involutive.
  - by rewrite elem_of_reverse.
  - destruct Hbefore as [-> | Hlast]; [by left | right].
    destruct before as [|c before _] using rev_ind; [done |].
    rewrite last_snoc in Hlast. injection Hlast as ->.
    by rewrite reverse_snoc.
Qed.

Lemma no_line_feed_in_invocation (E : unicode) :
  10%N ∉ E → 10%N ∉ (u "_run_main(" ++ E ++ u ")")%list.
Proof.
  intros HE.
  assert (Hopen : 10%N ∉ u "_run_main(")
    by (apply (bool_decide_unpack _); vm_compute; exact I).
  assert (Hclose : 10%N ∉ u ")")
    by (apply (bool_decide_unpack _); vm_compute; exact I).
  rewrite !elem_of_app. tauto.
Qed.

(** The text [epilogue] writes last is the final line of the program
    whenever the name has no line feed in it and the text before the
    invocation is empty or ends a line. *)
Lemma invocation_is_final_line (before E : unicode) :
  10%N ∉ E →
  (before = [] ∨ last before = Some 10%N) →
  final_line (before ++ u "_run_main(" ++ E ++ u ")" ++ [10%N])%list
  = (u "_run_main(" ++ E ++ u ")" ++ [10%N])%list.
Proof.
  intros HE Hbefore.
  pose proof (final_line_app before _ (no_line_feed_in_invocation E HE) Hbefore)
    as Hfinal.
  by rewrite <- !app_assoc in Hfinal.
Qed.

Lemma lines_from_one_line (line rest : unicode) :
  10%N ∉ rest →
  lines_from line (rest ++ [10%N])%list = [(line ++ rest ++ [10%N])%list].
Proof.
  revert line. induction rest as [|c rest IH]; intros line Hrest.
  - reflexivity.
  - apply not_elem_of_cons in Hrest as [Hc Hrest].
    cbn [app lines_from].
    destruct (c =? 10)%N eqn:Hc10; [apply N.eqb_eq in Hc10; congruence |].
    rewrite IH by done. by rewrite <- app_assoc.
Qed.

(** A text without a line feed but the one that ends it is one line. *)
Lemma invocation_is_one_line (E : unicode) :
  10%N ∉ E →
  text_lines (u "_run_main(" ++ E ++ u ")" ++ [10%N])%list
  = [(u "_run_main(" ++ E ++ u ")" ++ [10%N])%list].
Proof.
  intros HE. unfold text_lines.
  pose proof (lines_from_one_line [] _ (no_line_feed_in_invocation E HE)) as Hone.
  by rewrite <- !app_assoc in Hone.
Qed.

End Lines.

(** ** epilogue *)

Section Epilogue.

Variable py_str : pyval → unicode.

(** The entry-point name is settled without an exception: the key is
    only read once it was found. *)
Lemma main_function_total (init_message : list (unicode * pyval)) :
  SwiftRunner.main_function init_message
  = inr (default (PUnicode (u "main")) (dict_lookup (u "main") init_message)).
Proof.
  unfold SwiftRunner.main_function, dict_contains, dict_getitem.
  by destruct (dict_lookup (u "main") init_message).
Qed.

(** The world after the texts [chunks] were written through [fp]. *)
Lemma written_after (w : world) (fp : nat) (chunks : list unicode) :
  written (set_writers (λ ws, <[fp := (ws !!! fp ++ chunks)%list]> ws) w) fp
  = (written w fp ++ concat chunks)%list.
Proof.
  unfold written, set_writers. cbn [writers].
  by rewrite lookup_total_insert_eq, concat_app.
Qed.

(** The four ways [epilogue] ends: without a template file, with one that
    cannot be read, with a name the format does not take (after the
    template is written), and with both texts written. *)
Lemma epilogue_outcome (fp : nat) (init_message : list (unicode * pyval)) (w : world) :
  SwiftRunner.epilogue py_str fp init_message w
  = match files w !! SwiftRunner.SRC_EPILOGUE_FILE with
    | None => (w, inl IOError)
    | Some (inl e) => (w, inl e)
    | Some (inr template) =>
        match SwiftRunner.percent_s py_str (u "_run_main(")
                (default (PUnicode (u "main")) (dict_lookup (u "main") init_message))
                (u ")" ++ [10%N])%list with
        | inl e =>
            (set_writers (λ ws, <[fp := (ws !!! fp ++ [template])%list]> ws) w, inl e)
        | inr statement =>
            (set_writers
               (λ ws, <[fp := (ws !!! fp ++ [template; statement])%list]> ws) w,
             inr tt)
        end
    end.
Proof.
  unfold SwiftRunner.epilogue.
  rewrite (bind_returns _ _ w w _) by (by rewrite lift_returns, main_function_total).
  destruct (files w !! SwiftRunner.SRC_EPILOGUE_FILE) as [[e|template]|] eqn:Hfile.
  - apply bind_raises. unfold read_text. by rewrite Hfile.
  - rewrite (bind_returns _ _ w w template) by (unfold read_text; by rewrite Hfile).
    unfold mbind, Py_bind, file_write, lift, set_writers.
    cbn [writers dicts files stdout stderr clock ticks spawn].
    destruct (SwiftRunner.percent_s _ _ _ _) as [e|statement]; [done |].
    by rewrite lookup_total_insert_eq, insert_insert_eq, <- app_assoc.
  - apply bind_raises. unfold read_text. by rewrite Hfile.
Qed.

(** The format takes every name that is no tuple. *)
Lemma percent_s_invocation (name : pyval) :
  is_tuple name = false →
  SwiftRunner.percent_s py_str (u "_run_main(") name (u ")" ++ [10%N])%list
  = inr (invocation py_str name).
Proof. by destruct name. Qed.

(** With the template in place and a name that is no tuple, [epilogue]
    returns after exactly two writes on [fp], the template and the
    invocation. *)
Lemma epilogue_returns (fp : nat) (init_message : list (unicode * pyval))
    (w : world) (template : unicode) :
  files w !! SwiftRunner.SRC_EPILOGUE_FILE = Some (inr template) →
  is_tuple (default (PUnicode (u "main")) (dict_lookup (u "main") init_message))
  = false →
  SwiftRunner.epilogue py_str fp init_message w
  = (set_writers
       (λ ws, <[fp := (ws !!! fp
                       ++ [template;
                           invocation py_str
                             (default (PUnicode (u "main"))
                                (dict_lookup (u "main") init_message))])%list]> ws) w,
     inr tt).
Proof.
  intros Hfile Hname. rewrite epilogue_outcome, Hfile.
  by rewrite percent_s_invocation.
Qed.

(** C5. An initialization message without the key "main" resolves the
    entry point to the literal "main": with the template in place,
    [epilogue] returns, and the program text it leaves is the text before
    the call, the template, and the statement [_run_main(main)], which is
    the last text written. *)
Theorem epilogue_default_main (fp : nat) (init_message : list (unicode * pyval))
    (w : world) (template : unicode) :
  dict_lookup (u "main") init_message = None →
  files w !! SwiftRunner.SRC_EPILOGUE_FILE = Some (inr template) →
  SwiftRunner.main_function init_message = inr (PUnicode (u "main"))
  ∧ (SwiftRunner.epilogue py_str fp init_message w).2 = inr tt
  ∧ written (SwiftRunner.epilogue py_str fp init_message w).1 fp
    = (written w fp ++ template ++ u "_run_main(main)" ++ [10%N])%list
  ∧ last (writers (SwiftRunner.epilogue py_str fp init_message w).1 !!! fp)
    = Some (u "_run_main(main)" ++ [10%N])%list.
Proof.
  intros Hmain Hfile.
  rewrite (epilogue_returns fp init_message w template Hfile)
    by (by rewrite Hmain).
  rewrite main_function_total, Hmain. cbn [fst snd default].
  split_and!; [done | done | |].
  - rewrite written_after. cbn [concat]. by rewrite app_nil_r.
  - cbn [writers set_writers]. rewrite lookup_total_insert_eq.
    by rewrite (last_app _ [template; _]).
Qed.

(** C6, as the code has it.  With the template in place, for every text
    already written through [fp] (the user source) and every string [E]
    for entry-point name (the one under the key "main", or "main" itself
    without the key), [epilogue] returns after exactly two writes: the
    template, then the text [_run_main(E)] and a line feed, with [E] as it
    is.  The program is the source, the template and that text.  When [E]
    has no line feed, that text is exactly one line, the invocation of
    [E]. *)
Theorem epilogue_appends_template_and_invocation (fp : nat)
    (init_message : list (unicode * pyval)) (w : world) (template E : unicode) :
  files w !! SwiftRunner.SRC_EPILOGUE_FILE = Some (inr template) →
  default (PUnicode (u "main")) (dict_lookup (u "main") init_message) = PUnicode E →
  SwiftRunner.main_function init_message = inr (PUnicode E)
  ∧ (SwiftRunner.epilogue py_str fp init_message w).2 = inr tt
  ∧ writers (SwiftRunner.epilogue py_str fp init_message w).1 !!! fp
    = (writers w !!! fp
       ++ [template; u "_run_main(" ++ E ++ u ")" ++ [10%N]])%list
  ∧ written (SwiftRunner.epilogue py_str fp init_message w).1 fp
    = (written w fp ++ template ++ u "_run_main(" ++ E ++ u ")" ++ [10%N])%list
  ∧ (10%N ∉ E →
     ∃ statement,
       last (writers (SwiftRunner.epilogue py_str fp init_message w).1 !!! fp)
       = Some statement
       ∧ text_lines statement = [(u "_run_main(" ++ E ++ u ")" ++ [10%N])%list]).
Proof.
  intros Hfile Hname.
  rewrite (epilogue_returns fp init_message w template Hfile)
    by (by rewrite Hname).
  rewrite main_function_total, Hname. cbn [fst snd].
  split_and!; [done | done | | |].
  - cbn [writers set_writers]. by rewrite lookup_total_insert_eq.
  - rewrite written_after. cbn [concat]. by rewrite app_nil_r.
  - intros HE. eexists. split.
    + cbn [writers set_writers]. rewrite lookup_total_insert_eq.
      by rewrite (last_app _ [template; _]).
    + by apply invocation_is_one_line.
Qed.

(** C7. Synthesis is deterministic: two runs of [epilogue], in any two
    worlds, that start from the same program text, resolve the same
    entry-point name and find the same template content (or both none)
    end alike and leave the same program text. *)
Theorem epilogue_deterministic (fp1 fp2 : nat)
    (init_message1 init_message2 : list (unicode * pyval)) (w1 w2 : world) :
  written w1 fp1 = written w2 fp2 →
  SwiftRunner.main_function init_message1 = SwiftRunner.main_function init_message2 →
  files w1 !! SwiftRunner.SRC_EPILOGUE_FILE = files w2 !! SwiftRunner.SRC_EPILOGUE_FILE →
  (SwiftRunner.epilogue py_str fp1 init_message1 w1).2
  = (SwiftRunner.epilogue py_str fp2 init_message2 w2).2
  ∧ written (SwiftRunner.epilogue py_str fp1 init_message1 w1).1 fp1
    = written (SwiftRunner.epilogue py_str fp2 init_message2 w2).1 fp2.
Proof.
  intros Htext Hname Hfile.
  rewrite !main_function_total in Hname. injection Hname as Hname.
  rewrite !epilogue_outcome, <- Hfile, <- Hname.
  destruct (files w1 !! SwiftRunner.SRC_EPILOGUE_FILE) as [[e|template]|];
    [done | | done].
  destruct (SwiftRunner.percent_s _ _ _ _) as [e|statement]; cbn [fst snd].
  - split; [done |]. by rewrite !written_after, Htext.
  - split; [done |]. by rewrite !written_after, Htext.
Qed.

(** C10, as the code has it.  The entry-point name is put into the
    invocation as it is: for every string [E] under the key "main", valid
    identifier or not, with the template in place, the text [epilogue]
    writes last is exactly [_run_main(] followed by [E], [)] and a line
    feed, and the program ends with it.  It is the final line of the
    program when [E] has no line feed and the text before it is empty or
    ends with a line feed. *)
Theorem epilogue_main_verbatim (fp : nat) (init_message : list (unicode * pyval))
    (w : world) (template E : unicode) :
  dict_lookup (u "main") init_message = Some (PUnicode E) →
  files w !! SwiftRunner.SRC_EPILOGUE_FILE = Some (inr template) →
  (SwiftRunner.epilogue py_str fp init_message w).2 = inr tt
  ∧ last (writers (SwiftRunner.epilogue py_str fp init_message w).1 !!! fp)
    = Some (u "_run_main(" ++ E ++ u ")" ++ [10%N])%list
  ∧ written (SwiftRunner.epilogue py_str fp init_message w).1 fp
    = (written w fp ++ template ++ u "_run_main(" ++ E ++ u ")" ++ [10%N])%list
  ∧ (10%N ∉ E →
     (written w fp ++ template)%list = []
     ∨ last (written w fp ++ template)%list = Some 10%N →
     final_line (written (SwiftRunner.epilogue py_str fp init_message w).1 fp)
     = (u "_run_main(" ++ E ++ u ")" ++ [10%N])%list).
Proof.
  intros Hmain Hfile.
  assert (Hname : default (PUnicode (u "main")) (dict_lookup (u "main") init_message)
                  = PUnicode E) by (by rewrite Hmain).
  rewrite (epilogue_returns fp init_message w template Hfile)
    by (by rewrite Hname).
  rewrite Hname. cbn [fst snd].
  assert (Htext :
    written (set_writers
               (λ ws, <[fp := (ws !!! fp
                               ++ [template; invocation py_str (PUnicode E)])%list]> ws)
               w) fp
    = (written w fp ++ template ++ u "_run_main(" ++ E ++ u ")" ++ [10%N])%list).
  { rewrite written_after. cbn [concat]. by rewrite app_nil_r. }
  split_and!; [done | | done |].
  - cbn [writers set_writers]. rewrite lookup_total_insert_eq.
    by rewrite (last_app _ [template; _]).
  - intros HE Hbefore. rewrite Htext, (app_assoc (written w fp) template).
    by apply invocation_is_final_line.
Qed.

End Epilogue.

(** ** env *)

Section Env.

Variable ActionRunner_env : pyval → Py nat.

Lemma args_cases (message : pyval) :
  SwiftRunner.args message
  = if truthy message
    then match message with
         | PDict d => inr (default (PDict []) (dict_lookup (u "value") d))
         | _ => inl AttributeError
         end
    else inr (PDict []).
Proof.
  unfold SwiftRunner.args, py_get.
  destruct (truthy message); [| done].
  by destruct message.
Qed.

(** The three ways [env] ends once the parent's method has returned. *)
Lemma env_returns (message : pyval) (w w1 : world) (base : nat)
    (a : pyval) (encoded : string) :
  ActionRunner_env message w = (w1, inr base) →
  SwiftRunner.args message = inr a →
  Json.dumps a = inr encoded →
  SwiftRunner.env ActionRunner_env message w = (bind_input base encoded w1, inr base).
Proof.
  intros Hparent Hargs Hdumps. unfold SwiftRunner.env.
  rewrite (bind_returns _ _ w w1 base Hparent).
  rewrite (bind_returns _ _ w1 w1 a) by (by rewrite lift_returns, Hargs).
  rewrite (bind_returns _ _ w1 w1 encoded) by (by rewrite lift_returns, Hdumps).
  reflexivity.
Qed.

Lemma env_raises_args (message : pyval) (w w1 : world) (base : nat) (e : pyexc) :
  ActionRunner_env message w = (w1, inr base) →
  SwiftRunner.args message = inl e →
  SwiftRunner.env ActionRunner_env message w = (w1, inl e).
Proof.
  intros Hparent Hargs. unfold SwiftRunner.env.
  rewrite (bind_returns _ _ w w1 base Hparent).
  apply bind_raises. by rewrite lift_returns, Hargs.
Qed.

Lemma env_raises_dumps (message : pyval) (w w1 : world) (base : nat)
    (a : pyval) (e : pyexc) :
  ActionRunner_env message w = (w1, inr base) →
  SwiftRunner.args message = inr a →
  Json.dumps a = inl e →
  SwiftRunner.env ActionRunner_env message w = (w1, inl e).
Proof.
  intros Hparent Hargs Hdumps. unfold SwiftRunner.env.
  rewrite (bind_returns _ _ w w1 base Hparent).
  rewrite (bind_returns _ _ w1 w1 a) by (by rewrite lift_returns, Hargs).
  apply bind_raises. by rewrite lift_returns, Hdumps.
Qed.

Lemma bind_input_lookup (base : nat) (encoded : string) (w : world) :
  (dicts (bind_input base encoded w) !!! base) !! "WHISK_INPUT" = Some encoded.
Proof.
  unfold bind_input. simpl. rewrite lookup_total_insert_eq. apply lookup_insert_eq.
Qed.

Lemma bind_input_other_key (base : nat) (encoded : string) (w : world) (k : string) :
  k ≠ "WHISK_INPUT" →
  (dicts (bind_input base encoded w) !!! base) !! k = (dicts w !!! base) !! k.
Proof.
  intros Hk. unfold bind_input. simpl.
  rewrite lookup_total_insert_eq. by apply lookup_insert_ne.
Qed.

Lemma bind_input_other_object (base : nat) (encoded : string) (w : world) (a : nat) :
  a ≠ base → dicts (bind_input base encoded w) !! a = dicts w !! a.
Proof. intros Ha. unfold bind_input. simpl. by apply lookup_insert_ne. Qed.

Lemma args_of_value (d : list (unicode * pyval)) (v : pyval) :
  dict_lookup (u "value") d = Some v → SwiftRunner.args (PDict d) = inr v.
Proof.
  intros Hv. rewrite args_cases, Hv. by destruct d.
Qed.

Lemma message_payload_args (message a : pyval) :
  message_payload message = Some a → SwiftRunner.args message = inr a.
Proof.
  rewrite args_cases. unfold message_payload.
  destruct message as [|b|z|f|t|l|l|d|name truth]; cbn [truthy];
    try (by intros [= <-]);
    try (by case_match; [| intros [= <-]]).
  intros [= <-]. by destruct d.
Qed.

(** C3. Once the parent's method has handed back its mapping, for every
    run message whose payload [json.dumps] encodes, [env] returns that
    mapping with [WHISK_INPUT] bound to the encoding of the payload.  The
    encoding is printable ASCII, so it is a single line.  The payload is
    the value under the key "value" of the message; it is the empty
    mapping, encoded as [{}], when the key is absent and when the message
    is missing ([None]). *)
Theorem env_binds_encoded_payload (message : pyval) (w w1 : world) (base : nat)
    (a : pyval) (encoded : string) :
  ActionRunner_env message w = (w1, inr base) →
  message_payload message = Some a →
  Json.dumps a = inr encoded →
  (SwiftRunner.env ActionRunner_env message w).2 = inr base
  ∧ (dicts (SwiftRunner.env ActionRunner_env message w).1 !!! base) !! "WHISK_INPUT"
    = Some encoded
  ∧ printable encoded = true
  ∧ (∀ d v, message = PDict d → dict_lookup (u "value") d = Some v → a = v)
  ∧ (∀ d, message = PDict d → dict_lookup (u "value") d = None → encoded = "{}")
  ∧ (message = PNone → encoded = "{}").
Proof.
  intros Hparent Hpayload Hdumps.
  pose proof (message_payload_args message a Hpayload) as Hargs.
  rewrite (env_returns message w w1 base a encoded Hparent Hargs Hdumps).
  split_and!.
  - done.
  - apply bind_input_lookup.
  - by apply (dumps_printable a).
  - intros d v -> Hv. unfold message_payload in Hpayload.
    rewrite Hv in Hpayload. by injection Hpayload.
  - intros d -> Hd. unfold message_payload in Hpayload. rewrite Hd in Hpayload.
    injection Hpayload as <-. rewrite dumps_empty_mapping in Hdumps. congruence.
  - intros ->. injection Hpayload as <-.
    rewrite dumps_empty_mapping in Hdumps. congruence.
Qed.

(** C4, as the code has it.  [env] makes no copy: once the parent's method
    has handed back a mapping, [env] either raises and leaves the world as
    the parent left it, or binds [WHISK_INPUT] in that very mapping and
    returns it.  Every other mapping, and every other variable of that
    mapping, is as the parent left it. *)
Theorem env_updates_parent_mapping_in_place (message : pyval) (w w1 : world)
    (base : nat) :
  ActionRunner_env message w = (w1, inr base) →
  ((∃ e, SwiftRunner.env ActionRunner_env message w = (w1, inl e))
   ∨ (∃ encoded, SwiftRunner.env ActionRunner_env message w
                 = (bind_input base encoded w1, inr base)))
  ∧ (∀ a, a ≠ base →
       dicts (SwiftRunner.env ActionRunner_env message w).1 !! a = dicts w1 !! a)
  ∧ (∀ k, k ≠ "WHISK_INPUT" →
       (dicts (SwiftRunner.env ActionRunner_env message w).1 !!! base) !! k
       = (dicts w1 !!! base) !! k).
Proof.
  intros Hparent.
  destruct (SwiftRunner.args message) as [e|a] eqn:Hargs.
  { rewrite (env_raises_args message w w1 base e Hparent Hargs). eauto. }
  destruct (Json.dumps a) as [e|encoded] eqn:Hdumps.
  { rewrite (env_raises_dumps message w w1 base a e Hparent Hargs Hdumps). eauto. }
  rewrite (env_returns message w w1 base a encoded Hparent Hargs Hdumps).
  split_and!.
  - eauto.
  - intros b Hb. by apply bind_input_other_object.
  - intros k Hk. by apply bind_input_other_key.
Qed.

(** C8. On a run message (a mapping, or a missing one), once the parent's
    method has returned, [env] raises if and only if [json.dumps] cannot
    encode the payload, which is when the payload holds an object that is
    no JSON value.  The exception is the one of [json.dumps], raised before
    the assignment: the world is left as the parent's method left it. *)
Theorem env_raises_iff_payload_unencodable (message : pyval) (w w1 : world)
    (base : nat) (a : pyval) :
  ActionRunner_env message w = (w1, inr base) →
  message_payload message = Some a →
  ((∃ e, (SwiftRunner.env ActionRunner_env message w).2 = inl e)
   ↔ (∃ e, Json.dumps a = inl e))
  ∧ ((∃ e, Json.dumps a = inl e) ↔ json_value a = false)
  ∧ (∀ e, (SwiftRunner.env ActionRunner_env message w).2 = inl e →
       Json.dumps a = inl e
       ∧ (SwiftRunner.env ActionRunner_env message w).1 = w1).
Proof.
  intros Hparent Hpayload.
  pose proof (message_payload_args message a Hpayload) as Hargs.
  pose proof (dumps_cases a) as Hcases.
  destruct (json_value a) eqn:Hjson.
  - destruct Hcases as [encoded Hdumps].
    rewrite (env_returns message w w1 base a encoded Hparent Hargs Hdumps), Hdumps.
    cbn [fst snd]. split_and!.
    + split; by intros [e ?].
    + split; [by intros [e ?] | done].
    + done.
  - rewrite (env_raises_dumps message w w1 base a _ Hparent Hargs Hcases), Hcases.
    cbn [fst snd]. split_and!.
    + split; by eauto.
    + split; by eauto.
    + by intros e [= <-].
Qed.

(** C9. A message that binds the key "value" to [None] has [None] for
    payload, not the default: once the parent's method has handed back its
    mapping, [env] returns it with [WHISK_INPUT] bound to [null], which
    is not the encoding [{}] of the empty mapping. *)
Theorem env_null_value (d : list (unicode * pyval)) (w w1 : world) (base : nat) :
  ActionRunner_env (PDict d) w = (w1, inr base) →
  dict_lookup (u "value") d = Some PNone →
  SwiftRunner.args (PDict d) = inr PNone
  ∧ (SwiftRunner.env ActionRunner_env (PDict d) w).2 = inr base
  ∧ (dicts (SwiftRunner.env ActionRunner_env (PDict d) w).1 !!! base) !! "WHISK_INPUT"
    = Some "null"
  ∧ Json.dumps (PDict []) = inr "{}"
  ∧ "null" ≠ "{}".
Proof.
  intros Hparent Hvalue.
  pose proof (args_of_value d PNone Hvalue) as Hargs.
  rewrite (env_returns (PDict d) w w1 base PNone "null" Hparent Hargs eq_refl).
  split_and!; [done | done | apply bind_input_lookup | done | done].
Qed.

End Env.

(** ** build *)

Section Build.

Lemma append_assoc (s1 s2 s3 : string) : (s1 +:+ s2) +:+ s3 = s1 +:+ (s2 +:+ s3).
Proof.
  induction s1 as [|a s1 IH]; [done |].
  change (String a ((s1 +:+ s2) +:+ s3) = String a (s1 +:+ (s2 +:+ s3))).
  by rewrite IH.
Qed.

(** When the compiler can be started, [build] returns [None] after five
    prints; the compiler's standard error goes to the runner's own, and the
    files are what the compiler made of them. *)
Lemma build_returns (w : world) (c : completed) :
  spawn w SwiftRunner.BUILD_PROCESS = Some c →
  SwiftRunner.build w
  = (World (dicts w) (child_files c (files w)) (writers w)
           (stdout w +:+ build_log (clock w (ticks w)) (clock w (S (ticks w)))
                                   (child_stdout c))
           (stderr w +:+ child_stderr c)
           (clock w) (S (S (ticks w))) (spawn w),
     inr PNone).
Proof.
  intros Hspawn.
  unfold SwiftRunner.build, mbind, Py_bind, mret, Py_ret, now_time, print, Popen,
    communicate, set_stdout, set_stderr, set_ticks, set_files.
  cbn [spawn stdout stderr ticks clock dicts files writers].
  rewrite Hspawn.
  cbn [spawn stdout stderr ticks clock dicts files writers
       stdout_is_pipe stderr_is_pipe child fst snd str_of_optional].
  unfold build_log, LF. by rewrite !append_assoc.
Qed.

(** When it cannot, [build] raises [OSError] after the first two prints. *)
Lemma build_raises (w : world) :
  spawn w SwiftRunner.BUILD_PROCESS = None →
  SwiftRunner.build w
  = (World (dicts w) (files w) (writers w)
           (stdout w
            +:+ (time_str (clock w (ticks w)) +:+ " Start compilation" +:+ LF)
            +:+ (str_of_str_list SwiftRunner.BUILD_PROCESS +:+ LF))
           (stderr w) (clock w) (S (ticks w)) (spawn w),
     inl OSError).
Proof.
  intros Hspawn.
  unfold SwiftRunner.build, mbind, Py_bind, now_time, print, Popen,
    set_stdout, set_ticks.
  cbn [spawn stdout stderr ticks clock dicts files writers].
  rewrite Hspawn. by rewrite !append_assoc.
Qed.

(** C1, as the code has it.  [build] does not read the exit status: it
    returns [None] whenever the compiler was started, and two calls whose
    compilers differ in nothing but the exit status return and print the
    same. *)
Theorem build_ignores_exit_status (w : world) (c : completed) (status : Z) :
  (SwiftRunner.build (with_compiler c w)).2 = inr PNone
  ∧ observe (SwiftRunner.build (with_compiler c w))
    = observe (SwiftRunner.build
                 (with_compiler
                    (Completed status (child_stdout c) (child_stderr c) (child_files c))
                    w)).
Proof.
  rewrite (build_returns (with_compiler c w) c eq_refl).
  by rewrite (build_returns (with_compiler (Completed status _ _ _) w) _ eq_refl).
Qed.

(** C2, as the code has it.  A call of [build] that starts the compiler
    returns [None], no record, and computes no success flag.  What it has
    of the compilation it prints: first the time of day at the start, then
    the command, then the whole of the compiler's standard output, and last
    the time of day at the end.  It reads the clock twice, once before and
    once after the compiler ran. *)
Theorem build_prints_and_returns_none (w : world) (c : completed) :
  spawn w SwiftRunner.BUILD_PROCESS = Some c →
  (SwiftRunner.build w).2 = inr PNone
  ∧ ticks (SwiftRunner.build w).1 = S (S (ticks w))
  ∧ ∃ between,
      stdout (SwiftRunner.build w).1
      = stdout w
        +:+ (time_str (clock w (ticks w)) +:+ " Start compilation" +:+ LF)
        +:+ (str_of_str_list SwiftRunner.BUILD_PROCESS +:+ LF)
        +:+ (child_stdout c +:+ LF)
        +:+ between
        +:+ (time_str (clock w (S (ticks w))) +:+ " Finished compilation" +:+ LF).
Proof.
  intros Hspawn. rewrite (build_returns w c Hspawn). cbn [fst snd ticks stdout].
  split_and!; [done | done |]. by exists ("None" +:+ LF).
Qed.

End Build.

(** * Further properties of the three methods *)

(** ** epilogue *)

Section EpilogueFurther.

Variable py_str : pyval → unicode.

(** X1. When the template file is missing, or cannot be read or decoded,
    [epilogue] raises the exception of the reader ([IOError] for a missing
    file) before any write: the world, the writes on [fp] among it, is left
    as it was, and no invocation is written. *)
Theorem epilogue_raises_before_writing (fp : nat)
    (init_message : list (unicode * pyval)) (w : world) (e : pyexc) :
  files w !! SwiftRunner.SRC_EPILOGUE_FILE = None ∧ e = IOError
  ∨ files w !! SwiftRunner.SRC_EPILOGUE_FILE = Some (inl e) →
  SwiftRunner.epilogue py_str fp init_message w = (w, inl e).
Proof.
  intros [[Hfile ->] | Hfile]; by rewrite epilogue_outcome, Hfile.
Qed.

(** X2. Whether it returns or raises, [epilogue] writes through [fp] and
    nowhere else: what was written through [fp] before is kept, in order,
    at the front; the other file objects, the files, the mappings, the two
    standard streams and the clock are as they were. *)
Theorem epilogue_touches_only_fp (fp : nat) (init_message : list (unicode * pyval))
    (w : world) :
  (∃ added,
     writers (SwiftRunner.epilogue py_str fp init_message w).1 !!! fp
     = (writers w !!! fp ++ added)%list)
  ∧ (∀ fp', fp' ≠ fp →
       writers (SwiftRunner.epilogue py_str fp init_message w).1 !! fp'
       = writers w !! fp')
  ∧ files (SwiftRunner.epilogue py_str fp init_message w).1 = files w
  ∧ dicts (SwiftRunner.epilogue py_str fp init_message w).1 = dicts w
  ∧ stdout (SwiftRunner.epilogue py_str fp init_message w).1 = stdout w
  ∧ stderr (SwiftRunner.epilogue py_str fp init_message w).1 = stderr w
  ∧ ticks (SwiftRunner.epilogue py_str fp init_message w).1 = ticks w.
Proof.
  rewrite epilogue_outcome.
  assert (Hsame : ∃ added, writers w !!! fp = (writers w !!! fp ++ added)%list)
    by (exists []; by rewrite app_nil_r).
  destruct (files w !! SwiftRunner.SRC_EPILOGUE_FILE) as [[e|template]|];
    [by split_and! | | by split_and!].
  destruct (SwiftRunner.percent_s _ _ _ _) as [e|statement];
    cbn [fst set_writers writers files dicts stdout stderr ticks].
  - split_and!; try done.
    + eexists. by rewrite lookup_total_insert_eq.
    + intros fp' Hne. by rewrite lookup_insert_ne.
  - split_and!; try done.
    + eexists. by rewrite lookup_total_insert_eq.
    + intros fp' Hne. by rewrite lookup_insert_ne.
Qed.

(** X3. [epilogue] has no guard against a second call: called twice on the
    same file object, with the template in place and a name that is no
    tuple, it writes the template and the invocation twice. *)
Theorem epilogue_twice_appends_twice (fp : nat) (init_message : list (unicode * pyval))
    (w : world) (template : unicode) :
  files w !! SwiftRunner.SRC_EPILOGUE_FILE = Some (inr template) →
  is_tuple (default (PUnicode (u "main")) (dict_lookup (u "main") init_message))
  = false →
  (SwiftRunner.epilogue py_str fp init_message
     (SwiftRunner.epilogue py_str fp init_message w).1).2 = inr tt
  ∧ ∃ name,
      SwiftRunner.main_function init_message = inr name
      ∧ writers (SwiftRunner.epilogue py_str fp init_message
                   (SwiftRunner.epilogue py_str fp init_message w).1).1 !!! fp
        = (writers w !!! fp
           ++ [template; invocation py_str name;
               template; invocation py_str name])%list.
Proof.
  intros Hfile Hname.
  rewrite (epilogue_returns py_str fp init_message w template Hfile Hname). cbn [fst].
  rewrite (epilogue_returns py_str fp init_message _ template) by done.
  split; [done |]. eexists. split; [apply main_function_total |].
  cbn [fst set_writers writers]. rewrite !lookup_total_insert_eq.
  by rewrite <- app_assoc.
Qed.

(** X4. With the template in place, a name without a line feed, and the
    text before the invocation (what was written, then the template) empty
    or ended by a line feed, the final line of the program is the
    invocation of that name. *)
Theorem epilogue_final_line (fp : nat) (init_message : list (unicode * pyval))
    (w : world) (template E : unicode) :
  dict_lookup (u "main") init_message = Some (PUnicode E) →
  files w !! SwiftRunner.SRC_EPILOGUE_FILE = Some (inr template) →
  10%N ∉ E →
  ((written w fp ++ template)%list = []
   ∨ last (written w fp ++ template)%list = Some 10%N) →
  final_line (written (SwiftRunner.epilogue py_str fp init_message w).1 fp)
  = (u "_run_main(" ++ E ++ u ")" ++ [10%N])%list.
Proof.
  intros Hmain Hfile HE Hbefore.
  assert (Hname : default (PUnicode (u "main")) (dict_lookup (u "main") init_message)
                  = PUnicode E) by (by rewrite Hmain).
  rewrite (epilogue_returns py_str fp init_message w template Hfile)
    by (by rewrite Hname).
  rewrite Hname. cbn [fst]. rewrite written_after. cbn [concat].
  rewrite app_nil_r, (app_assoc (written w fp) template).
  by apply invocation_is_final_line.
Qed.

(** X5. A line feed in the name breaks the invocation over several lines:
    with the template in place, the final line of the program is what
    follows the last line feed of the name, then [)] and the line feed. *)
Theorem epilogue_line_feed_in_name (fp : nat) (init_message : list (unicode * pyval))
    (w : world) (template E1 E2 : unicode) :
  dict_lookup (u "main") init_message = Some (PUnicode (E1 ++ [10%N] ++ E2)%list) →
  files w !! SwiftRunner.SRC_EPILOGUE_FILE = Some (inr template) →
  10%N ∉ E2 →
  final_line (written (SwiftRunner.epilogue py_str fp init_message w).1 fp)
  = (E2 ++ u ")" ++ [10%N])%list.
Proof.
  intros Hmain Hfile HE2.
  assert (Hname : default (PUnicode (u "main")) (dict_lookup (u "main") init_message)
                  = PUnicode (E1 ++ [10%N] ++ E2)%list) by (by rewrite Hmain).
  rewrite (epilogue_returns py_str fp init_message w template Hfile)
    by (by rewrite Hname).
  rewrite Hname. cbn [fst]. rewrite written_after. cbn [concat].
  rewrite app_nil_r. unfold invocation. cbn [SwiftRunner.to_text].
  assert (Hclose : 10%N ∉ (E2 ++ u ")")%list).
  { rewrite elem_of_app. intros [Hin | Hin]; [done |].
    revert Hin. apply (bool_decide_unpack _). vm_compute. exact I. }
  pose proof (final_line_app
                (written w fp ++ template ++ u "_run_main(" ++ E1 ++ [10%N])%list
                (E2 ++ u ")")%list Hclose) as Hfinal.
  rewrite <- !app_assoc in Hfinal. rewrite <- !app_assoc. apply Hfinal.
  right. rewrite !app_assoc. apply last_snoc.
Qed.

(** X16. The name is not checked to be a string: with the template in
    place, [None], a boolean or an integer under the key "main" is written
    into the invocation as [str] shows it ([None], [True], [False], the
    decimal digits with their sign). *)
Theorem epilogue_name_not_a_string (fp : nat) (init_message : list (unicode * pyval))
    (w : world) (template : unicode) (name : pyval) (text : unicode) :
  dict_lookup (u "main") init_message = Some name →
  files w !! SwiftRunner.SRC_EPILOGUE_FILE = Some (inr template) →
  name = PNone ∧ text = u "None"
  ∨ name = PBool true ∧ text = u "True"
  ∨ name = PBool false ∧ text = u "False"
  ∨ (∃ z, name = PInt z ∧ text = u (str_of_int z)) →
  (SwiftRunner.epilogue py_str fp init_message w).2 = inr tt
  ∧ last (writers (SwiftRunner.epilogue py_str fp init_message w).1 !!! fp)
    = Some (u "_run_main(" ++ text ++ u ")" ++ [10%N])%list.
Proof.
  intros Hmain Hfile Hname.
  assert (Hresolved :
    default (PUnicode (u "main")) (dict_lookup (u "main") init_message) = name)
    by (by rewrite Hmain).
  assert (Htext : is_tuple name = false
                  ∧ invocation py_str name
                    = (u "_run_main(" ++ text ++ u ")" ++ [10%N])%list).
  { destruct Hname as [[-> ->] | [[-> ->] | [[-> ->] | (z & -> & ->)]]]; by split. }
  destruct Htext as [Htuple Htext].
  rewrite (epilogue_returns py_str fp init_message w template Hfile)
    by (by rewrite Hresolved).
  rewrite Hresolved, Htext. cbn [fst snd set_writers writers].
  split; [done |]. rewrite lookup_total_insert_eq.
  by rewrite (last_app _ [template; _]).
Qed.

End EpilogueFurther.

(** ** build *)

Section BuildFurther.

(** X6. [build] raises exactly when the compiler cannot be started, and
    the exception is then [OSError]; whether the compiler succeeds or fails
    once started makes [build] raise nothing. *)
Theorem build_raises_iff_no_compiler (w : world) (e : pyexc) :
  (SwiftRunner.build w).2 = inl e
  ↔ spawn w SwiftRunner.BUILD_PROCESS = None ∧ e = OSError.
Proof.
  destruct (spawn w SwiftRunner.BUILD_PROCESS) as [c|] eqn:Hspawn.
  - rewrite (build_returns w c Hspawn). simpl. split; [done | by intros [? _]].
  - rewrite (build_raises w Hspawn). split; [by intros [= <-] | by intros [_ ->]].
Qed.

(** X7. When the compiler cannot be started, [build] has by then printed
    the start line and the command, and nothing after them: no output of the
    compiler, no finish line.  It has read the clock once. *)
Theorem build_without_compiler (w : world) :
  spawn w SwiftRunner.BUILD_PROCESS = None →
  SwiftRunner.build w
  = (World (dicts w) (files w) (writers w)
           (stdout w
            +:+ (time_str (clock w (ticks w)) +:+ " Start compilation" +:+ LF)
            +:+ (str_of_str_list SwiftRunner.BUILD_PROCESS +:+ LF))
           (stderr w) (clock w) (S (ticks w)) (spawn w),
     inl OSError).
Proof. apply build_raises. Qed.

(** X8. [build] itself only adds to the two standard streams: it leaves
    the mappings and the file objects as they were, and the files are
    changed by nothing but what the compiler, once started, makes of
    them. *)
Theorem build_only_appends_to_streams (w : world) :
  (∃ printed, stdout (SwiftRunner.build w).1 = stdout w +:+ printed)
  ∧ (∃ passed, stderr (SwiftRunner.build w).1 = stderr w +:+ passed)
  ∧ dicts (SwiftRunner.build w).1 = dicts w
  ∧ writers (SwiftRunner.build w).1 = writers w
  ∧ files (SwiftRunner.build w).1
    = match spawn w SwiftRunner.BUILD_PROCESS with
      | Some c => child_files c (files w)
      | None => files w
      end.
Proof.
  destruct (spawn w SwiftRunner.BUILD_PROCESS) as [c|] eqn:Hspawn.
  - rewrite (build_returns w c Hspawn). simpl. split_and!; by eauto.
  - rewrite (build_raises w Hspawn). simpl.
    split_and!; try done; [by eauto |].
    exists "". clear. induction (stderr w) as [|a s IH]; [done |].
    change (String a s = String a (s +:+ "")). by rewrite <- IH.
Qed.

(** X9. [build] has no guard against a second call: called again, it runs
    the compiler again.  After two calls the log is there twice, the
    compiler's standard error has gone through twice, the compiler has
    worked on the files twice, and the clock was read four times. *)
Theorem build_twice_compiles_twice (w : world) (c : completed) :
  spawn w SwiftRunner.BUILD_PROCESS = Some c →
  SwiftRunner.build (SwiftRunner.build w).1
  = (World (dicts w) (child_files c (child_files c (files w))) (writers w)
           (stdout w
            +:+ build_log (clock w (ticks w)) (clock w (S (ticks w))) (child_stdout c)
            +:+ build_log (clock w (S (S (ticks w)))) (clock w (S (S (S (ticks w)))))
                          (child_stdout c))
           (stderr w +:+ child_stderr c +:+ child_stderr c)
           (clock w) (S (S (S (S (ticks w))))) (spawn w),
     inr PNone).
Proof.
  intros Hspawn. rewrite (build_returns w c Hspawn). cbn [fst].
  rewrite (build_returns _ c) by exact Hspawn.
  cbn [dicts files writers stdout stderr clock ticks spawn].
  by rewrite !append_assoc.
Qed.

End BuildFurther.

(** ** env *)

Section EnvFurther.

Variable ActionRunner_env : pyval → Py nat.

Lemma json_value_lookup (k : unicode) (d : list (unicode * pyval)) (v : pyval) :
  json_value (PDict d) = true → dict_lookup k d = Some v → json_value v = true.
Proof.
  cbn [json_value]. induction d as [|[k' x] d IH]; [done |].
  cbn [forallb dict_lookup]. intros [Hx Hd]%andb_prop.
  case_bool_decide; [by intros [= <-] | by apply IH].
Qed.

Lemma bind_input_twice (base : nat) (first second : string) (w : world) :
  bind_input base second (bind_input base first w) = bind_input base second w.
Proof.
  unfold bind_input, set_dicts. cbn [dicts files writers stdout stderr clock ticks spawn].
  by rewrite lookup_total_insert_eq, !insert_insert_eq.
Qed.

(** Once the parent's method has returned, [env] ends in one of two ways. *)
Lemma env_updates_in_place_cases (message : pyval) (w w1 : world) (base : nat) :
  ActionRunner_env message w = (w1, inr base) →
  (∃ e, SwiftRunner.env ActionRunner_env message w = (w1, inl e))
  ∨ (∃ encoded, SwiftRunner.env ActionRunner_env message w
                = (bind_input base encoded w1, inr base)).
Proof.
  intros Hparent.
  destruct (SwiftRunner.args message) as [e|a] eqn:Hargs.
  { rewrite (env_raises_args _ message w w1 base e Hparent Hargs). eauto. }
  destruct (Json.dumps a) as [e|encoded] eqn:Hdumps.
  { rewrite (env_raises_dumps _ message w w1 base a e Hparent Hargs Hdumps). eauto. }
  rewrite (env_returns _ message w w1 base a encoded Hparent Hargs Hdumps). eauto.
Qed.

(** X10. An exception of the parent's method goes through [env] as it is:
    [env] then encodes nothing and binds nothing, and the world is as the
    parent's method left it. *)
Theorem env_parent_raises (message : pyval) (w w1 : world) (e : pyexc) :
  ActionRunner_env message w = (w1, inl e) →
  SwiftRunner.env ActionRunner_env message w = (w1, inl e).
Proof. intros Hparent. unfold SwiftRunner.env. by apply bind_raises. Qed.

(** X11. Beyond the mappings, [env] adds nothing to what the parent's
    method did: the files, the file objects, the two standard streams and
    the clock are as the parent's method left them, whether [env] returns or
    raises. *)
Theorem env_touches_only_mappings (message : pyval) (w w1 : world) (base : nat) :
  ActionRunner_env message w = (w1, inr base) →
  files (SwiftRunner.env ActionRunner_env message w).1 = files w1
  ∧ writers (SwiftRunner.env ActionRunner_env message w).1 = writers w1
  ∧ stdout (SwiftRunner.env ActionRunner_env message w).1 = stdout w1
  ∧ stderr (SwiftRunner.env ActionRunner_env message w).1 = stderr w1
  ∧ ticks (SwiftRunner.env ActionRunner_env message w).1 = ticks w1.
Proof.
  intros Hparent.
  destruct (SwiftRunner.args message) as [e|a] eqn:Hargs.
  { by rewrite (env_raises_args _ message w w1 base e Hparent Hargs). }
  destruct (Json.dumps a) as [e|encoded] eqn:Hdumps.
  { by rewrite (env_raises_dumps _ message w w1 base a e Hparent Hargs Hdumps). }
  by rewrite (env_returns _ message w w1 base a encoded Hparent Hargs Hdumps).
Qed.

(** X12. On a run message made of JSON values that is a mapping, or
    false, [env] does not raise: once the parent's method has handed back
    its mapping, [env] returns it with [WHISK_INPUT] bound. *)
Theorem env_returns_on_json_message (message : pyval) (w w1 : world) (base : nat) :
  ActionRunner_env message w = (w1, inr base) →
  json_value message = true →
  is_dict message = true ∨ truthy message = false →
  (SwiftRunner.env ActionRunner_env message w).2 = inr base
  ∧ is_Some ((dicts (SwiftRunner.env ActionRunner_env message w).1 !!! base)
             !! "WHISK_INPUT").
Proof.
  intros Hparent Hjson Hshape.
  assert (Hargs : ∃ a, SwiftRunner.args message = inr a ∧ json_value a = true).
  { rewrite args_cases. destruct (truthy message) eqn:Htruthy; [| by eexists].
    destruct Hshape as [Hdict | ?]; [| done].
    destruct message as [| | | | | | |d|]; try done.
    destruct (dict_lookup (u "value") d) as [v|] eqn:Hv; [| by eexists].
    exists v. split; [done |]. by apply (json_value_lookup (u "value") d). }
  destruct Hargs as (a & Hargs & Ha).
  pose proof (dumps_cases a) as Hdumps. rewrite Ha in Hdumps.
  destruct Hdumps as [encoded Hdumps].
  rewrite (env_returns _ message w w1 base a encoded Hparent Hargs Hdumps).
  split; [done |]. cbn [fst]. rewrite bind_input_lookup. by eexists.
Qed.

(** X13. The last call wins.  With a parent's method that hands back the
    same mapping every time and does nothing else, a call of [env] that
    returns leaves the world the same whatever call of [env] came before
    it: nothing of the earlier payload is left. *)
Theorem env_last_call_wins (base : nat) (earlier message : pyval) (w : world)
    (a : pyval) (encoded : string) :
  (∀ m w', ActionRunner_env m w' = (w', inr base)) →
  SwiftRunner.args message = inr a →
  Json.dumps a = inr encoded →
  SwiftRunner.env ActionRunner_env message
    (SwiftRunner.env ActionRunner_env earlier w).1
  = SwiftRunner.env ActionRunner_env message w.
Proof.
  intros Hparent Hargs Hdumps.
  rewrite (env_returns _ message w w base a encoded (Hparent _ _) Hargs Hdumps).
  rewrite (env_returns _ message _ _ base a encoded (Hparent _ _) Hargs Hdumps).
  destruct (env_updates_in_place_cases earlier w w base (Hparent _ _))
    as [[e ->] | [first ->]]; [done |].
  cbn [fst]. by rewrite bind_input_twice.
Qed.

(** X14. A call that raises leaves the input of the call before it in
    place.  With a parent's method that hands back the same mapping every
    time and does nothing else, after a call of [env] that returned and a
    call that raised, [WHISK_INPUT] is still bound to the encoding of the
    earlier payload. *)
Theorem env_failed_call_keeps_earlier_input (base : nat) (earlier message : pyval)
    (w : world) (a : pyval) (encoded : string) (e : pyexc) :
  (∀ m w', ActionRunner_env m w' = (w', inr base)) →
  SwiftRunner.args earlier = inr a →
  Json.dumps a = inr encoded →
  (SwiftRunner.env ActionRunner_env message
     (SwiftRunner.env ActionRunner_env earlier w).1).2 = inl e →
  (dicts (SwiftRunner.env ActionRunner_env message
            (SwiftRunner.env ActionRunner_env earlier w).1).1 !!! base)
    !! "WHISK_INPUT"
  = Some encoded.
Proof.
  intros Hparent Hargs Hdumps.
  rewrite (env_returns _ earlier w w base a encoded (Hparent _ _) Hargs Hdumps).
  cbn [fst]. intros Hraises.
  destruct (env_updates_in_place_cases message (bind_input base encoded w)
              (bind_input base encoded w) base (Hparent _ _))
    as [[e' Hcall] | [second Hcall]]; rewrite Hcall in Hraises |- *.
  - apply bind_input_lookup.
  - discriminate Hraises.
Qed.

(** X15. A run message that is a true value and no mapping (a list, a
    number, a string, ...) has no method [get]: once the parent's method has
    returned, [env] raises [AttributeError] before anything is encoded or
    bound, and the world is as the parent's method left it. *)
Theorem env_raises_on_true_non_mapping (message : pyval) (w w1 : world) (base : nat) :
  ActionRunner_env message w = (w1, inr base) →
  truthy message = true →
  is_dict message = false →
  SwiftRunner.env ActionRunner_env message w = (w1, inl AttributeError).
Proof.
  intros Hparent Htrue Hnodict.
  apply (env_raises_args _ message w w1 base AttributeError Hparent).
  rewrite args_cases, Htrue. by destruct message.
Qed.

End EnvFurther.

(** * The properties at work, and where the spec and the code part *)

Lemma epilogue_default_main_witness :
  dict_lookup (u "main") init_without_main = None
  ∧ written (SwiftRunner.epilogue example_str 3 init_without_main example_world).1 3
    = (u "func main() {}" ++ example_template ++ u "_run_main(main)" ++ [10%N])%list.
Proof.
  split; [reflexivity |].
  destruct (epilogue_default_main example_str 3 init_without_main example_world
              example_template eq_refl eq_refl) as (_ & _ & Htext & _).
  exact Htext.
Defined.

Lemma epilogue_appends_template_and_invocation_witness :
  writers (SwiftRunner.epilogue example_str 3 init_with_main example_world).1 !!! 3
  = [u "func main() {}"; example_template;
     (u "_run_main(handleRequest)" ++ [10%N])%list]
  ∧ writers (SwiftRunner.epilogue example_str 3 init_without_main example_world).1 !!! 3
    = [u "func main() {}"; example_template; (u "_run_main(main)" ++ [10%N])%list].
Proof.
  split.
  - destruct (epilogue_appends_template_and_invocation example_str 3 init_with_main
                example_world example_template (u "handleRequest") eq_refl eq_refl)
      as (_ & _ & Hwrites & _).
    exact Hwrites.
  - destruct (epilogue_appends_template_and_invocation example_str 3 init_without_main
                example_world example_template (u "main") eq_refl eq_refl)
      as (_ & _ & Hwrites & _).
    exact Hwrites.
Defined.

(** C6, against the claim as the spec has it.  The name [a)], line feed,
    [_run_main(b] is put into the invocation as it is: the text written last
    is two lines, each an invocation, and the line the program ends with
    invokes [b], which is not the name. *)
Lemma epilogue_two_invocations_counterexample :
  last (writers (SwiftRunner.epilogue example_str 3 init_with_two_invocations
                   example_world).1 !!! 3)
  = Some (u "_run_main(a)" ++ [10%N] ++ u "_run_main(b)" ++ [10%N])%list
  ∧ text_lines (u "_run_main(a)" ++ [10%N] ++ u "_run_main(b)" ++ [10%N])%list
    = [(u "_run_main(a)" ++ [10%N])%list; (u "_run_main(b)" ++ [10%N])%list]
  ∧ final_line (written (SwiftRunner.epilogue example_str 3 init_with_two_invocations
                           example_world).1 3)
    = (u "_run_main(b)" ++ [10%N])%list
  ∧ final_line (written (SwiftRunner.epilogue example_str 3 init_with_two_invocations
                           example_world).1 3)
    ≠ (u "_run_main(" ++ (u "a)" ++ [10%N] ++ u "_run_main(b") ++ u ")" ++ [10%N])%list.
Proof.
  split_and!; [reflexivity | reflexivity | reflexivity |].
  intros Hsame. vm_compute in Hsame. discriminate Hsame.
Qed.

Lemma epilogue_deterministic_witness :
  written (SwiftRunner.epilogue example_str 3 init_with_main example_world).1 3
  = written (SwiftRunner.epilogue example_str 3 init_with_main
               (with_compiler working_compiler example_world)).1 3.
Proof.
  destruct (epilogue_deterministic example_str 3 3 init_with_main init_with_main
              example_world (with_compiler working_compiler example_world)
              eq_refl eq_refl eq_refl) as [_ Htext].
  exact Htext.
Defined.

Lemma epilogue_main_verbatim_witness :
  last (writers (SwiftRunner.epilogue example_str 3
                   [(u "main", PUnicode (u "not an identifier!"))]
                   example_world).1 !!! 3)
  = Some (u "_run_main(not an identifier!)" ++ [10%N])%list
  ∧ final_line (written (SwiftRunner.epilogue example_str 3
                           [(u "main", PUnicode (u "not an identifier!"))]
                           example_world).1 3)
    = (u "_run_main(not an identifier!)" ++ [10%N])%list.
Proof.
  destruct (epilogue_main_verbatim example_str 3
              [(u "main", PUnicode (u "not an identifier!"))] example_world
              example_template (u "not an identifier!") eq_refl eq_refl)
    as (_ & Hlast & _ & Hfinal).
  split; [exact Hlast |]. apply Hfinal.
  - apply (bool_decide_unpack _). vm_compute. exact I.
  - right. reflexivity.
Defined.

(** C10, against the claim as the spec has it.  For the name [a], line
    feed, [b], the final line of the program is [b)] with its line feed,
    not the invocation of the name. *)
Lemma epilogue_final_line_counterexample :
  dict_lookup (u "main") init_with_line_feed
  = Some (PUnicode (u "a" ++ [10%N] ++ u "b")%list)
  ∧ final_line (written (SwiftRunner.epilogue example_str 3 init_with_line_feed
                           example_world).1 3)
    = (u "b)" ++ [10%N])%list
  ∧ final_line (written (SwiftRunner.epilogue example_str 3 init_with_line_feed
                           example_world).1 3)
    ≠ (u "_run_main(" ++ (u "a" ++ [10%N] ++ u "b") ++ u ")" ++ [10%N])%list.
Proof.
  split_and!; [reflexivity | reflexivity |].
  intros Hsame. vm_compute in Hsame. discriminate Hsame.
Qed.

Lemma env_binds_encoded_payload_witness :
  input_after (run_message 1) = Some (encoded_x "1")
  ∧ input_after PNone = Some "{}"
  ∧ input_after (PDict []) = Some "{}"
  ∧ input_after (PDict [(u "deadline", PInt 1)]) = Some "{}"
  ∧ input_after (PDict [(u "value", PFloat (FFinite false 15 (-1)))]) = Some "1.5".
Proof.
  split_and!.
  - destruct (env_binds_encoded_payload (ActionRunner_env_ambient 0) (run_message 1)
                example_world example_world 0 (PDict [(u "x", PInt 1)]) (encoded_x "1")
                eq_refl eq_refl eq_refl) as (_ & Hbound & _).
    exact Hbound.
  - destruct (env_binds_encoded_payload (ActionRunner_env_ambient 0) PNone
                example_world example_world 0 (PDict []) "{}"
                eq_refl eq_refl eq_refl) as (_ & Hbound & _).
    exact Hbound.
  - destruct (env_binds_encoded_payload (ActionRunner_env_ambient 0) (PDict [])
                example_world example_world 0 (PDict []) "{}"
                eq_refl eq_refl eq_refl) as (_ & Hbound & _).
    exact Hbound.
  - destruct (env_binds_encoded_payload (ActionRunner_env_ambient 0)
                (PDict [(u "deadline", PInt 1)])
                example_world example_world 0 (PDict []) "{}"
                eq_refl eq_refl eq_refl) as (_ & Hbound & _).
    exact Hbound.
  - destruct (env_binds_encoded_payload (ActionRunner_env_ambient 0)
                (PDict [(u "value", PFloat (FFinite false 15 (-1)))])
                example_world example_world 0 (PFloat (FFinite false 15 (-1))) "1.5"
                eq_refl eq_refl eq_refl) as (_ & Hbound & _).
    exact Hbound.
Defined.

Lemma env_updates_parent_mapping_in_place_witness :
  (dicts (SwiftRunner.env (ActionRunner_env_ambient 0) (run_message 1)
            example_world).1 !!! 0) !! "PATH"
  = Some "/usr/bin".
Proof.
  destruct (env_updates_parent_mapping_in_place (ActionRunner_env_ambient 0)
              (run_message 1) example_world example_world 0 eq_refl)
    as (_ & _ & Hkeys).
  rewrite (Hkeys "PATH") by discriminate. reflexivity.
Defined.

(** C4, against the claim as the spec has it.  With a parent that hands
    back the ambient environment, a first call binds [WHISK_INPUT] in the
    ambient environment itself, and a second call, which returns the same
    mapping, changes what the first call returned. *)
Lemma env_base_counterexample :
  (SwiftRunner.env (ActionRunner_env_ambient 0) (run_message 1) example_world).2
  = inr 0
  ∧ (SwiftRunner.env (ActionRunner_env_ambient 0) (run_message 2)
       (SwiftRunner.env (ActionRunner_env_ambient 0) (run_message 1)
          example_world).1).2
    = inr 0
  ∧ (dicts example_world !!! 0) !! "WHISK_INPUT" = None
  ∧ (dicts (SwiftRunner.env (ActionRunner_env_ambient 0) (run_message 1)
              example_world).1 !!! 0) !! "WHISK_INPUT"
    = Some (encoded_x "1")
  ∧ (dicts (SwiftRunner.env (ActionRunner_env_ambient 0) (run_message 2)
              (SwiftRunner.env (ActionRunner_env_ambient 0) (run_message 1)
                 example_world).1).1 !!! 0) !! "WHISK_INPUT"
    = Some (encoded_x "2")
  ∧ ¬ leaves_base_unchanged (ActionRunner_env_ambient 0).
Proof.
  split_and!; try reflexivity.
  intros Hunchanged.
  specialize (Hunchanged (run_message 1) example_world example_world 0 eq_refl).
  apply (f_equal (λ m, m ≫= (.!! "WHISK_INPUT"))) in Hunchanged.
  vm_compute in Hunchanged. discriminate Hunchanged.
Qed.

Lemma env_raises_iff_payload_unencodable_witness :
  (∃ e, (SwiftRunner.env (ActionRunner_env_ambient 0)
           (PDict [(u "value", PList [POther "set" false])]) example_world).2 = inl e)
  ∧ ¬ (∃ e, (SwiftRunner.env (ActionRunner_env_ambient 0) PNone example_world).2
            = inl e).
Proof.
  split.
  - destruct (env_raises_iff_payload_unencodable (ActionRunner_env_ambient 0)
                (PDict [(u "value", PList [POther "set" false])])
                example_world example_world 0 (PList [POther "set" false])
                eq_refl eq_refl) as ([_ Hraises] & _).
    apply Hraises. by exists TypeError.
  - destruct (env_raises_iff_payload_unencodable (ActionRunner_env_ambient 0) PNone
                example_world example_world 0 (PDict []) eq_refl eq_refl)
      as ([Hraises _] & _).
    intros Henv. destruct (Hraises Henv) as [e He]. discriminate He.
Defined.

Lemma env_null_value_witness :
  (dicts (SwiftRunner.env (ActionRunner_env_ambient 0)
            (PDict [(u "value", PNone)]) example_world).1 !!! 0) !! "WHISK_INPUT"
  = Some "null".
Proof.
  destruct (env_null_value (ActionRunner_env_ambient 0) [(u "value", PNone)]
              example_world example_world 0 eq_refl eq_refl) as (_ & _ & Hbound & _).
  exact Hbound.
Defined.

Lemma build_prints_and_returns_none_witness :
  (SwiftRunner.build example_world).2 = inr PNone
  ∧ ticks (SwiftRunner.build example_world).1 = 2
  ∧ ∃ between,
      stdout (SwiftRunner.build example_world).1
      = "09:05:00 Start compilation" +:+ LF
        +:+ "['swiftc', '-v', '-Xfrontend', '-debug-time-function-bodies', '-O', "
        +:+ "'/swiftAction/action.swift', '-o', '/swiftAction/action']" +:+ LF
        +:+ LF
        +:+ between
        +:+ "09:05:01.000007 Finished compilation" +:+ LF.
Proof.
  destruct (build_prints_and_returns_none example_world failing_compiler eq_refl)
    as (Hreturns & Hticks & between & Hprinted).
  split_and!; [exact Hreturns | exact Hticks |].
  exists between. exact Hprinted.
Defined.

(** C1, against the claim as the spec has it.  A compiler that exits
    with status 0 and one that exits with status 1, alike otherwise, give
    calls of [build] that return and print the same: nothing [build]
    returns or prints tells success from failure. *)
Lemma build_exit_status_counterexample :
  observe (SwiftRunner.build
             (with_compiler (Completed 0 "" "" (λ fs, fs)) example_world))
  = observe (SwiftRunner.build
               (with_compiler (Completed 1 "" "" (λ fs, fs)) example_world))
  ∧ ¬ ∃ report, reports_exit_status report.
Proof.
  assert (Hsame :
    observe (SwiftRunner.build
               (with_compiler (Completed 0 "" "" (λ fs, fs)) example_world))
    = observe (SwiftRunner.build
                 (with_compiler (Completed 1 "" "" (λ fs, fs)) example_world)))
    by reflexivity.
  split; [exact Hsame |].
  intros [report Hreport].
  pose proof (Hreport example_world (Completed 0 "" "" (λ fs, fs))) as Hok.
  pose proof (Hreport example_world (Completed 1 "" "" (λ fs, fs))) as Hfailed.
  rewrite Hsame in Hok. rewrite Hok in Hfailed. discriminate Hfailed.
Qed.

(** C2, against the claim as the spec has it.  With a compiler that
    exits with status 1, [build] returns [None], as it does with one that
    exits with status 0: no reading of the value returned gives the record
    of the spec. *)
Lemma build_result_counterexample :
  (SwiftRunner.build example_world).2 = inr PNone
  ∧ (SwiftRunner.build (with_compiler working_compiler example_world)).2 = inr PNone
  ∧ ¬ ∃ read, produces_build_result read.
Proof.
  split_and!; [reflexivity | reflexivity |].
  intros [read Hread].
  pose proof (Hread example_world working_compiler) as Hok.
  pose proof (Hread example_world failing_compiler) as Hfailed.
  change (SwiftRunner.build _).2 with (@inr pyexc pyval PNone) in Hok, Hfailed.
  rewrite Hok in Hfailed. discriminate Hfailed.
Qed.

(** ** The further properties at work *)

Lemma epilogue_raises_before_writing_witness :
  SwiftRunner.epilogue example_str 3 init_with_main bare_world
  = (bare_world, inl IOError)
  ∧ SwiftRunner.epilogue example_str 3 init_with_main
      (set_files (λ fs, <[SwiftRunner.SRC_EPILOGUE_FILE := inl UnicodeDecodeError]> fs)
         example_world)
    = (set_files (λ fs, <[SwiftRunner.SRC_EPILOGUE_FILE := inl UnicodeDecodeError]> fs)
         example_world,
       inl UnicodeDecodeError).
Proof.
  split.
  - apply (epilogue_raises_before_writing example_str 3 init_with_main bare_world
             IOError).
    left. split; reflexivity.
  - apply (epilogue_raises_before_writing example_str 3 init_with_main _
             UnicodeDecodeError).
    right. reflexivity.
Defined.

Lemma epilogue_twice_appends_twice_witness :
  ∃ name,
    SwiftRunner.main_function init_without_main = inr name
    ∧ writers (SwiftRunner.epilogue example_str 3 init_without_main
                 (SwiftRunner.epilogue example_str 3 init_without_main
                    example_world).1).1 !!! 3
      = [u "func main() {}";
         example_template; invocation example_str name;
         example_template; invocation example_str name].
Proof.
  destruct (epilogue_twice_appends_twice example_str 3 init_without_main
              example_world example_template eq_refl eq_refl)
    as (_ & name & Hname & Hwrites).
  exists name. split; [exact Hname | exact Hwrites].
Defined.

Lemma epilogue_final_line_witness :
  final_line (written (SwiftRunner.epilogue example_str 3 init_with_main
                         example_world).1 3)
  = (u "_run_main(handleRequest)" ++ [10%N])%list.
Proof.
  apply (epilogue_final_line example_str 3 init_with_main example_world
           example_template (u "handleRequest") eq_refl eq_refl).
  - apply (bool_decide_unpack _). vm_compute. exact I.
  - right. reflexivity.
Defined.

Lemma epilogue_line_feed_in_name_witness :
  final_line (written (SwiftRunner.epilogue example_str 3 init_with_line_feed
                         example_world).1 3)
  = (u "b)" ++ [10%N])%list.
Proof.
  apply (epilogue_line_feed_in_name example_str 3 init_with_line_feed example_world
           example_template (u "a") (u "b") eq_refl eq_refl).
  apply (bool_decide_unpack _). vm_compute. exact I.
Defined.

Lemma build_without_compiler_witness :
  observe (SwiftRunner.build bare_world)
  = (inl OSError,
     "23:59:00 Start compilation" +:+ LF
     +:+ "['swiftc', '-v', '-Xfrontend', '-debug-time-function-bodies', '-O', "
     +:+ "'/swiftAction/action.swift', '-o', '/swiftAction/action']" +:+ LF,
     "").
Proof.
  rewrite (build_without_compiler bare_world eq_refl).
  reflexivity.
Defined.

Lemma build_twice_compiles_twice_witness :
  observe (SwiftRunner.build (SwiftRunner.build example_world).1)
  = (inr PNone,
     build_log (Time 9 5 0 0) (Time 9 5 1 7) ""
     +:+ build_log (Time 9 5 2 14) (Time 9 5 3 21) "",
     "syntax errorsyntax error").
Proof.
  rewrite (build_twice_compiles_twice example_world failing_compiler eq_refl).
  reflexivity.
Defined.

Lemma env_parent_raises_witness :
  SwiftRunner.env ActionRunner_env_raising (run_message 1) example_world
  = (example_world, inl (OtherError "RuntimeError")).
Proof.
  apply (env_parent_raises ActionRunner_env_raising (run_message 1)
           example_world example_world (OtherError "RuntimeError") eq_refl).
Defined.

Lemma env_touches_only_mappings_witness :
  writers (SwiftRunner.env (ActionRunner_env_ambient 0) (run_message 1)
             example_world).1
  = writers example_world.
Proof.
  destruct (env_touches_only_mappings (ActionRunner_env_ambient 0) (run_message 1)
              example_world example_world 0 eq_refl) as (_ & Hwriters & _).
  exact Hwriters.
Defined.

Lemma env_returns_on_json_message_witness :
  (SwiftRunner.env (ActionRunner_env_ambient 0)
     (PDict [(u "value", PList [PNone; PBool true; PUnicode (u "a")])])
     example_world).2
  = inr 0.
Proof.
  destruct (env_returns_on_json_message (ActionRunner_env_ambient 0)
              (PDict [(u "value", PList [PNone; PBool true; PUnicode (u "a")])])
              example_world example_world 0 eq_refl eq_refl (or_introl eq_refl))
    as [Hreturns _].
  exact Hreturns.
Defined.

Lemma env_last_call_wins_witness :
  SwiftRunner.env (ActionRunner_env_ambient 0) (run_message 2)
    (SwiftRunner.env (ActionRunner_env_ambient 0) (run_message 1) example_world).1
  = SwiftRunner.env (ActionRunner_env_ambient 0) (run_message 2) example_world.
Proof.
  apply (env_last_call_wins (ActionRunner_env_ambient 0) 0 (run_message 1)
           (run_message 2) example_world (PDict [(u "x", PInt 2)]) (encoded_x "2")
           (λ _ _, eq_refl) eq_refl eq_refl).
Defined.

Lemma env_failed_call_keeps_earlier_input_witness :
  (dicts (SwiftRunner.env (ActionRunner_env_ambient 0) (PList [PInt 1])
            (SwiftRunner.env (ActionRunner_env_ambient 0) (run_message 1)
               example_world).1).1 !!! 0)
    !! "WHISK_INPUT"
  = Some (encoded_x "1").
Proof.
  apply (env_failed_call_keeps_earlier_input (ActionRunner_env_ambient 0) 0
           (run_message 1) (PList [PInt 1]) example_world
           (PDict [(u "x", PInt 1)]) (encoded_x "1") AttributeError
           (λ _ _, eq_refl) eq_refl eq_refl eq_refl).
Defined.

Lemma env_raises_on_true_non_mapping_witness :
  SwiftRunner.env (ActionRunner_env_ambient 0) (PList [PInt 1]) example_world
  = (example_world, inl AttributeError).
Proof.
  apply (env_raises_on_true_non_mapping (ActionRunner_env_ambient 0) (PList [PInt 1])
           example_world example_world 0 eq_refl eq_refl eq_refl).
Defined.

Lemma epilogue_name_not_a_string_witness :
  last (writers (SwiftRunner.epilogue example_str 3 [(u "main", PInt (-12))]
                   example_world).1 !!! 3)
  = Some (u "_run_main(-12)" ++ [10%N])%list
  ∧ last (writers (SwiftRunner.epilogue example_str 3 [(u "main", PNone)]
                     example_world).1 !!! 3)
    = Some (u "_run_main(None)" ++ [10%N])%list.
Proof.
  split.
  - destruct (epilogue_name_not_a_string example_str 3 [(u "main", PInt (-12))]
                example_world example_template (PInt (-12)) (u "-12") eq_refl eq_refl)
      as [_ Hlast]; [| exact Hlast].
    right. right. right. by exists (-12)%Z.
  - destruct (epilogue_name_not_a_string example_str 3 [(u "main", PNone)]
                example_world example_template PNone (u "None") eq_refl eq_refl)
      as [_ Hlast]; [| exact Hlast].
    left. by split.
Defined.
